(** * REIT / FRED monthly panel: cleaning, alignment and merge

    A shallow embedding of the three scripts of the repository

    - [code/fetch_reit_data.py]   (entity-panel cleaner,     module [Reit]),
    - [code/fetch_fred_data.py]   (indicator-series cleaner, module [Fred]),
    - [code/merge_final_panel.py] (panel merger & validator, module [Merge]),

    together with the part of pandas they rely on (module [Pandas]).

    A data frame is a list of rows.  Columns the scripts address by name are
    record fields; the remaining columns are kept by name next to the rows.
    Values are IEEE-754 binary64 numbers ([spec_float] at precision 53),
    strings, timestamps, or missing.  [print] calls become events appended to
    a log, file accesses go through an explicit world state. *)

From Stdlib Require Import ZArith List Bool Lia Arith.
From Stdlib Require Import Strings.String Strings.Ascii.
From Stdlib Require Import Floats.SpecFloat.
From Stdlib Require Import Sorting.Permutation Sorting.Sorted.
Import ListNotations.

Set Implicit Arguments.

(* ====================================================================== *)
(** * Part I: definitions                                                  *)
(* ====================================================================== *)

(** ** The pandas fragment used by the scripts *)

Module Pandas.

(** *** Floating point numbers (numpy float64) *)

Definition float := spec_float.

Definition prec : Z := 53.
Definition emax : Z := 1024.

Definition nan : float := S754_nan.
Definition fdiv : float -> float -> float := SFdiv prec emax.
Definition fsub : float -> float -> float := SFsub prec emax.
Definition fmul : float -> float -> float := SFmul prec emax.
Definition fleb : float -> float -> bool := SFleb.
Definition fltb : float -> float -> bool := SFltb.

(** The float nearest to the integer [m]. *)
Definition float_of_Z (m : Z) : float := binary_normalize prec emax m 0 false.

Definition f_one : float := Eval vm_compute in float_of_Z 1.
Definition f_hundred : float := Eval vm_compute in float_of_Z 100.
Definition f_five : float := Eval vm_compute in float_of_Z 5.
Definition f_minus_one : float := Eval vm_compute in float_of_Z (-1).

Definition is_nan (x : float) : bool :=
  match x with S754_nan => true | _ => false end.

(** *** Timestamps and monthly periods

    A [pandas.Timestamp] seen through its fields; [time_ns] is the time of
    day in nanoseconds.  The int64 range of pandas timestamps (years 1677 to
    2262) is not modelled. *)

Record Timestamp : Set := mkTimestamp
  { year : Z; month : Z; day : Z; time_ns : Z }.

Definition is_leap_year (y : Z) : bool :=
  ((y mod 4 =? 0) && negb (y mod 100 =? 0) || (y mod 400 =? 0))%Z.

Definition days_in_month (y m : Z) : Z :=
  (if m =? 2 then (if is_leap_year y then 29 else 28)
   else if (m =? 4) || (m =? 6) || (m =? 9) || (m =? 11) then 30
   else 31)%Z.

Definition valid_timestamp (t : Timestamp) : bool :=
  ((1 <=? month t) && (month t <=? 12) &&
   (1 <=? day t) && (day t <=? days_in_month (year t) (month t)) &&
   (0 <=? time_ns t) && (time_ns t <? 86400000000000))%Z.

(** [pandas.Period] of frequency ['M']. *)
Record Period : Set := mkPeriod { p_year : Z; p_month : Z }.

(** [Series.dt.to_period('M')] on one value. *)
Definition to_period_M (t : Timestamp) : Period :=
  {| p_year := year t; p_month := month t |}.

(** [Series.dt.to_timestamp('M')] on one monthly period: pandas converts the
    period to a date through the last day of the period, at midnight. *)
Definition to_timestamp_M (p : Period) : Timestamp :=
  {| year := p_year p; month := p_month p;
     day := days_in_month (p_year p) (p_month p); time_ns := 0 |}.

(** The idiom [.dt.to_period('M').dt.to_timestamp('M')] of both scripts. *)
Definition to_month_end (t : Timestamp) : Timestamp :=
  to_timestamp_M (to_period_M t).

(** Days since 1970-01-01 of a civil date (proleptic Gregorian calendar),
    the day count a timestamp stores.  Used to relate [days_in_month] to
    the calendar in Part II. *)
Definition days_from_civil (y m d : Z) : Z :=
  (let y' := if m <=? 2 then y - 1 else y in
   let era := y' / 400 in
   let yoe := y' - era * 400 in
   let mp := (m + 9) mod 12 in
   let doy := (153 * mp + 2) / 5 + d - 1 in
   let doe := yoe * 365 + yoe / 4 - yoe / 100 + doy in
   era * 146097 + doe - 719468)%Z.

Definition unix_date (t : Timestamp) : Z :=
  days_from_civil (year t) (month t) (day t).

Definition timestamp_compare (a b : Timestamp) : comparison :=
  match (year a ?= year b)%Z with
  | Eq => match (month a ?= month b)%Z with
          | Eq => match (day a ?= day b)%Z with
                  | Eq => (time_ns a ?= time_ns b)%Z
                  | c => c
                  end
          | c => c
          end
  | c => c
  end.

Definition Timestamp_eq_dec (a b : Timestamp) : {a = b} + {a <> b}.
Proof. decide equality; apply Z.eq_dec. Defined.

(** *** Cells

    One value of a data frame.  [NA] stands for [None], [NaN] and [NaT]
    alike; a float NaN stored in a numeric column is missing as well. *)

Inductive cell : Set :=
| NA
| Str (s : string)
| Num (x : float)
| TS (t : Timestamp).

Definition float_eq_dec (a b : float) : {a = b} + {a <> b}.
Proof.
  decide equality;
    try apply Bool.bool_dec; try apply Pos.eq_dec; try apply Z.eq_dec.
Defined.

Definition cell_eq_dec (a b : cell) : {a = b} + {a <> b}.
Proof.
  decide equality;
    [apply string_dec | apply float_eq_dec | apply Timestamp_eq_dec].
Defined.

(** [pandas.isnull] on one value. *)
Definition isnull (c : cell) : bool :=
  match c with
  | NA => true
  | Num x => is_nan x
  | _ => false
  end.

Definition notnull (c : cell) : bool := negb (isnull c).

(** *** Scalar conversions

    The parsers behind [pd.to_datetime], [pd.to_numeric], [astype(str)] and
    [str.upper] are library code; the development is parametric in them.
    [parse_datetime] and [parse_numeric] answer [None] for a value they
    reject. *)

Record Scalars : Type := mkScalars
  { parse_datetime : cell -> option Timestamp;
    parse_numeric : cell -> option float;
    repr : cell -> string;
    upper : string -> string }.

(** Exceptions of the modelled fragment. *)
Inductive exn : Set :=
| DateParseError.

Inductive result (A : Type) : Type :=
| Ok (a : A)
| Raise (e : exn).

Arguments Ok {A} a.
Arguments Raise {A} e.

Definition bind {A B} (r : result A) (k : A -> result B) : result B :=
  match r with
  | Ok a => k a
  | Raise e => Raise e
  end.

Fixpoint mapM {A B} (f : A -> result B) (l : list A) : result (list B) :=
  match l with
  | [] => Ok []
  | x :: l' =>
      bind (f x) (fun y => bind (mapM f l') (fun ys => Ok (y :: ys)))
  end.

Section Conversions.

Variable sc : Scalars.

(** [pd.to_datetime(v, errors='coerce')] on one value: the result is a
    timestamp or [NaT]. *)
Definition to_datetime_coerce (c : cell) : cell :=
  match c with
  | TS t => TS t
  | _ => if isnull c then NA
         else match parse_datetime sc c with
              | Some t => TS t
              | None => NA
              end
  end.

(** [pd.to_datetime(v)] on one value: a value that does not parse raises. *)
Definition to_datetime (c : cell) : result cell :=
  match c with
  | TS t => Ok (TS t)
  | _ => if isnull c then Ok NA
         else match parse_datetime sc c with
              | Some t => Ok (TS t)
              | None => Raise DateParseError
              end
  end.

(** [pd.to_numeric(v, errors='coerce')] on one value: always a float. *)
Definition to_numeric_coerce (c : cell) : float :=
  match c with
  | Num x => x
  | _ => if isnull c then nan
         else match parse_numeric sc c with
              | Some x => x
              | None => nan
              end
  end.

(** [astype(str)] on one value. *)
Definition astype_str (c : cell) : string :=
  match c with
  | Str s => s
  | _ => repr sc c
  end.

End Conversions.

(** *** Frame operations, on one column or on a list of rows *)

(** [df[mask]]: the rows whose mask entry is [True]. *)
Fixpoint boolean_mask {A} (mask : list bool) (l : list A) : list A :=
  match mask, l with
  | b :: mask', x :: l' =>
      if b then x :: boolean_mask mask' l' else boolean_mask mask' l'
  | _, _ => []
  end.

(** [duplicated(keep='first')] on a list of keys: an entry is marked when
    its key was seen at an earlier position. *)
Fixpoint duplicated_from {K} (eq_dec : forall a b : K, {a = b} + {a <> b})
  (seen : list K) (keys : list K) : list bool :=
  match keys with
  | [] => []
  | k :: keys' =>
      if in_dec eq_dec k seen
      then true :: duplicated_from eq_dec seen keys'
      else false :: duplicated_from eq_dec (k :: seen) keys'
  end.

Definition duplicated {K} (eq_dec : forall a b : K, {a = b} + {a <> b})
  (keys : list K) : list bool :=
  duplicated_from eq_dec [] keys.

(** [Series.ffill(limit=n)]: a missing value takes the last valid value
    before it, for at most [limit] consecutive missing values after that
    valid value.  [last] is the last valid value so far and [run] the
    number of missing values met since. *)
Fixpoint ffill_from {A} (null : A -> bool) (limit : nat)
  (last : option A) (run : nat) (xs : list A) : list A :=
  match xs with
  | [] => []
  | x :: xs' =>
      if null x then
        match last with
        | Some v =>
            (if (run <? limit)%nat then v else x)
              :: ffill_from null limit last (S run) xs'
        | None => x :: ffill_from null limit None run xs'
        end
      else x :: ffill_from null limit (Some x) 0 xs'
  end.

Definition ffill {A} (null : A -> bool) (limit : nat) (xs : list A) : list A :=
  ffill_from null limit None 0 xs.

(** [Series.shift(n)] for [n >= 0]: values move down by [n] positions, the
    first [n] become NaN, the length is kept. *)
Definition shift (n : nat) (xs : list float) : list float :=
  firstn (List.length xs) (repeat nan n ++ xs).

Fixpoint zip_with {A B C} (f : A -> B -> C) (l : list A) (l' : list B)
  : list C :=
  match l, l' with
  | x :: t, y :: t' => f x y :: zip_with f t t'
  | _, _ => []
  end.

(** [Series.pct_change(n)]: [data / data.shift(n) - 1]. *)
Definition pct_change (n : nat) (xs : list float) : list float :=
  zip_with (fun x prev => fsub (fdiv x prev) f_one) xs (shift n xs).

(** [.dt.to_period('M').dt.to_timestamp('M')] on one value of a datetime
    column: [NaT] stays [NaT]. *)
Definition dt_to_month_end (c : cell) : cell :=
  match c with
  | TS t => TS (to_month_end t)
  | other => other
  end.

(** Position of a column name in [df.columns]. *)
Fixpoint index_of (name : string) (cols : list string) : option nat :=
  match cols with
  | [] => None
  | c :: cols' =>
      if string_dec name c then Some 0%nat
      else option_map S (index_of name cols')
  end.

(** *** Reference conversions for CSV text

    A concrete [Scalars] for the worked examples: ISO dates [YYYY-MM-DD],
    plain decimal literals, ASCII letters.  Text outside these forms is
    rejected; [repr] is only ever applied to non-string cells, which the
    examples do not place in a string column. *)

Definition digit_of (a : ascii) : option Z :=
  let n := Z.of_nat (nat_of_ascii a) in
  if ((48 <=? n) && (n <=? 57))%Z then Some (n - 48)%Z else None.

(** Reads a run of decimal digits: the value read (after [acc]), the number
    of digits, and the rest of the text. *)
Fixpoint read_digits (s : string) (acc : Z) (n : nat) : Z * nat * string :=
  match s with
  | String a s' =>
      match digit_of a with
      | Some d => read_digits s' (acc * 10 + d)%Z (S n)
      | None => (acc, n, s)
      end
  | EmptyString => (acc, n, s)
  end.

Definition parse_iso_date (s : string) : option Timestamp :=
  let '(y, ny, s1) := read_digits s 0 0 in
  match s1 with
  | String "-"%char s2 =>
      let '(m, nm, s3) := read_digits s2 0 0 in
      match s3 with
      | String "-"%char s4 =>
          let '(d, nd, s5) := read_digits s4 0 0 in
          let t := {| year := y; month := m; day := d; time_ns := 0 |} in
          match s5 with
          | EmptyString =>
              if (ny =? 4)%nat && (nm =? 2)%nat && (nd =? 2)%nat
                 && valid_timestamp t
              then Some t else None
          | _ => None
          end
      | _ => None
      end
  | _ => None
  end.

Definition parse_unsigned_decimal (s : string) : option float :=
  let '(i, ni, s1) := read_digits s 0 0 in
  match s1 with
  | EmptyString => if (0 <? ni)%nat then Some (float_of_Z i) else None
  | String "."%char s2 =>
      let '(m, nf, s3) := read_digits s2 i 0 in
      match s3 with
      | EmptyString =>
          if (0 <? ni + nf)%nat
          then Some (fdiv (float_of_Z m) (float_of_Z (10 ^ Z.of_nat nf)))
          else None
      | _ => None
      end
  | _ => None
  end.

Definition parse_decimal (s : string) : option float :=
  match s with
  | String "-"%char s' => option_map SFopp (parse_unsigned_decimal s')
  | _ => parse_unsigned_decimal s
  end.

Definition ascii_upper (a : ascii) : ascii :=
  let n := nat_of_ascii a in
  if ((97 <=? n) && (n <=? 122))%nat then ascii_of_nat (n - 32) else a.

Fixpoint string_upper (s : string) : string :=
  match s with
  | EmptyString => EmptyString
  | String a s' => String (ascii_upper a) (string_upper s')
  end.

Definition csv_scalars : Scalars :=
  {| parse_datetime := fun c =>
       match c with Str s => parse_iso_date s | _ => None end;
     parse_numeric := fun c =>
       match c with Str s => parse_decimal s | _ => None end;
     repr := fun _ => "nan"%string;
     upper := string_upper |}.

End Pandas.

(** ** [fetch_reit_data.py]: the entity-panel cleaner *)

Module Reit.
Import Pandas.

(** One row of the REIT table.  [ticker], [date] and [usdret] are the
    columns [clean_reit_data] requires ([dropna(subset=...)] raises a
    [KeyError] without them), so its tests ['date' in df.columns],
    ['usdret' in df.columns] and ['ticker' in df.columns] hold whenever they
    are reached; [extra] holds the other columns by name.  The progress
    lines the cleaner prints carry counts only and are left out. *)
Record row : Set := mkRow
  { ticker : cell; date : cell; usdret : cell;
    extra : list (string * cell) }.

Definition DataFrame := list row.

Definition set_ticker (r : row) (c : cell) : row :=
  {| ticker := c; date := date r; usdret := usdret r; extra := extra r |}.

Definition set_date (r : row) (c : cell) : row :=
  {| ticker := ticker r; date := c; usdret := usdret r; extra := extra r |}.

Definition numeric_cols : list string :=
  ["usdret"; "market_equity"; "assets"; "sales"; "net_income";
   "book_equity"; "debt_at"]%string.

(** The float behind a cell of a numeric column. *)
Definition num_of (c : cell) : float :=
  match c with Num x => x | _ => nan end.

(** [df.dropna(subset=['ticker', 'date', 'usdret'])] *)
Definition dropna_critical (df : DataFrame) : DataFrame :=
  filter (fun r => notnull (ticker r) && notnull (date r)
                   && notnull (usdret r)) df.

(** The key of [duplicated(subset=['ticker', 'date'])]. *)
Definition key (r : row) : cell * cell := (ticker r, date r).

Definition key_eq_dec (a b : cell * cell) : {a = b} + {a <> b}.
Proof. decide equality; apply cell_eq_dec. Defined.

Section Clean.

Variable sc : Scalars.

(** Lines 97-102: [to_datetime(errors='coerce')], then the rows whose date
    became [NaT] are dropped when there is one. *)
Definition parse_dates (df : DataFrame) : DataFrame :=
  map (fun r => set_date r (to_datetime_coerce sc (date r))) df.

Definition drop_invalid_dates (df : DataFrame) : DataFrame :=
  let invalid_dates := List.length (filter (fun r => isnull (date r)) df) in
  if (0 <? invalid_dates)%nat
  then filter (fun r => notnull (date r)) df
  else df.

(** Lines 104-108: [to_numeric(errors='coerce')] on every numeric column
    that is present. *)
Definition coerce_extra (nc : string * cell) : string * cell :=
  if in_dec string_dec (fst nc) numeric_cols
  then (fst nc, Num (to_numeric_coerce sc (snd nc)))
  else nc.

Definition coerce_numeric (df : DataFrame) : DataFrame :=
  map (fun r => {| ticker := ticker r; date := date r;
                   usdret := Num (to_numeric_coerce sc (usdret r));
                   extra := map coerce_extra (extra r) |}) df.

(** Lines 110-116: [(df['usdret'] > 5.0) | (df['usdret'] < -1.0)] counts the
    outliers; the range filter runs only when the count is positive. *)
Definition is_outlier (r : row) : bool :=
  fltb f_five (num_of (usdret r)) || fltb (num_of (usdret r)) f_minus_one.

Definition in_range (r : row) : bool :=
  fleb (num_of (usdret r)) f_five && fleb f_minus_one (num_of (usdret r)).

Definition remove_outliers (df : DataFrame) : DataFrame :=
  let outliers := List.length (boolean_mask (map is_outlier df) df) in
  if (0 <? outliers)%nat
  then boolean_mask (map in_range df) df
  else df.

(** Lines 118-120: [astype(str).str.upper()] on the ticker. *)
Definition upper_ticker (df : DataFrame) : DataFrame :=
  map (fun r => set_ticker r (Str (upper sc (astype_str sc (ticker r))))) df.

(** Lines 122-126: duplicates on (ticker, date) are counted and, when there
    is one, dropped with [keep='first']. *)
Definition drop_duplicates (df : DataFrame) : DataFrame :=
  boolean_mask (map negb (duplicated key_eq_dec (map key df))) df.

Definition remove_duplicates (df : DataFrame) : DataFrame :=
  let duplicates :=
    List.length (boolean_mask (duplicated key_eq_dec (map key df)) df) in
  if (0 <? duplicates)%nat then drop_duplicates df else df.

(** The table as it stands before the duplicate check (lines 90-120). *)
Definition prepare (df : DataFrame) : DataFrame :=
  upper_ticker
    (remove_outliers
       (coerce_numeric (drop_invalid_dates (parse_dates (dropna_critical df))))).

Definition clean_reit_data (df : DataFrame) : DataFrame :=
  remove_duplicates (prepare df).

End Clean.

End Reit.

(** ** [fetch_fred_data.py]: the indicator-series cleaner *)

Module Fred.
Import Pandas.

(** One row of the FRED table: the [date] column and the values of the
    series columns, in the order of [columns].  Both fetch paths build the
    series columns as float64.  The progress lines the cleaner prints are
    left out. *)
Record row : Set := mkRow { date : cell; vals : list float }.

Record DataFrame : Set := mkFrame { columns : list string; rows : list row }.

Definition set_date (r : row) (c : cell) : row :=
  {| date := c; vals := vals r |}.

Definition dates (rs : list row) : list cell := map date rs.

(** The values of the column at position [j]. *)
Definition column_at (j : nat) (rs : list row) : list float :=
  map (fun r => nth j (vals r) nan) rs.

(** [df[name]] for a series column that is present. *)
Definition column (name : string) (df : DataFrame) : list float :=
  match index_of name (columns df) with
  | Some j => column_at j (rows df)
  | None => []
  end.

(** The first [n] rows of a table given by its columns. *)
Definition rows_of (n : nat) (ds : list cell) (cols : list (list float))
  : list row :=
  map (fun i => {| date := nth i ds NA;
                   vals := map (fun c => nth i c nan) cols |}) (seq 0 n).

Fixpoint set_nth {A} (j : nat) (v : A) (l : list A) : list A :=
  match l, j with
  | [], _ => []
  | _ :: t, O => v :: t
  | x :: t, S j' => x :: set_nth j' v t
  end.

(** [df[name] = values]: an existing column is overwritten, a new one is
    appended. *)
Definition assign (name : string) (values : list float) (df : DataFrame)
  : DataFrame :=
  match index_of name (columns df) with
  | Some j =>
      {| columns := columns df;
         rows := zip_with (fun r v => {| date := date r;
                                         vals := set_nth j v (vals r) |})
                          (rows df) values |}
  | None =>
      {| columns := columns df ++ [name];
         rows := zip_with (fun r v => {| date := date r;
                                         vals := vals r ++ [v] |})
                          (rows df) values |}
  end.

(** [df.ffill(limit=n)]: every column, the date column included, is filled
    on its own. *)
Definition ffill_frame (limit : nat) (df : DataFrame) : DataFrame :=
  {| columns := columns df;
     rows := rows_of (List.length (rows df))
               (ffill isnull limit (dates (rows df)))
               (map (fun j => ffill is_nan limit (column_at j (rows df)))
                    (seq 0 (List.length (columns df)))) |}.

Definition complete (r : row) : bool :=
  notnull (date r) && forallb (fun x => negb (is_nan x)) (vals r).

(** [df.dropna()] *)
Definition dropna (df : DataFrame) : DataFrame :=
  {| columns := columns df; rows := filter complete (rows df) |}.

Definition has_column (name : string) (df : DataFrame) : bool :=
  if in_dec string_dec name (columns df) then true else false.

(** Lines 202-204. *)
Definition add_cpi_inflation (df : DataFrame) : DataFrame :=
  if has_column "CPIAUCSL" df
  then assign "cpi_inflation_yoy"
         (map (fun x => fmul x f_hundred) (pct_change 12 (column "CPIAUCSL" df)))
         df
  else df.

(** Lines 206-209. *)
Definition add_fedfunds_lags (df : DataFrame) : DataFrame :=
  if has_column "FEDFUNDS" df
  then
    let df1 := assign "FEDFUNDS_lag1" (shift 1 (column "FEDFUNDS" df)) df in
    assign "FEDFUNDS_lag3" (shift 3 (column "FEDFUNDS" df1)) df1
  else df.

Section Clean.

Variable sc : Scalars.

(** Line 186: [df['date'] = pd.to_datetime(df['date'])]. *)
Definition parse_dates (df : DataFrame) : result DataFrame :=
  bind (mapM (fun r => bind (to_datetime sc (date r))
                            (fun d => Ok (set_date r d))) (rows df))
       (fun rs => Ok {| columns := columns df; rows := rs |}).

(** Line 189: month-end normalisation of the date column. *)
Definition normalize_dates (df : DataFrame) : DataFrame :=
  {| columns := columns df;
     rows := map (fun r => set_date r (dt_to_month_end (date r))) (rows df) |}.

Definition clean_fred_data (df : DataFrame) : result DataFrame :=
  bind (parse_dates df) (fun df =>
  let df := normalize_dates df in
  let df := ffill_frame 2 df in
  let df := dropna df in
  let df := add_cpi_inflation df in
  let df := add_fedfunds_lags df in
  Ok (dropna df)).

End Clean.

End Fred.

(** ** [merge_final_panel.py]: the panel merger and validator *)

Module Merge.
Import Pandas.

(** *** Tables

    A processed file as [load_processed_data] holds it after [pd.read_csv]
    and [pd.to_datetime]: the date column is a datetime column, [None]
    being [NaT]; [ticker] is a string column, [None] being NaN. *)

Record reit_row : Set := mkReit
  { ticker : option string; date : option Timestamp; fields : list cell }.

Definition reit_frame := list reit_row.

Record fred_row : Set := mkFred
  { fdate : option Timestamp; findicators : list cell }.

Record fred_frame : Set := mkFredFrame
  { indicator_columns : list string; fred_rows : list fred_row }.

(** A row of the merged panel: the entity row and the indicator fields
    joined to it. *)
Record panel_row : Set := mkPanelRow
  { entity : reit_row; indicators : list cell }.

Definition panel := list panel_row.

(** *** Effects: standard output and the data directories *)

Inductive event : Set :=
| Banner (title : string)
| ReitNotFound
| FredNotFound
| ReitLoaded (n_rows : nat)
| FredLoaded (n_rows : nat)
| ReitAligned
| FredAligned
| CannotMerge
| MergeSummary (reit_before fred_rows panel_after : nat)
| RowsLost (rows_lost : Z)
| NoDataLoss
| PanelDimensions (n_rows : nat)
| EntityCoverage (n_tickers n_months expected_obs actual_obs : nat)
                 (imbalance : Z)
| SavedPanel (n_rows : nat)
| SavedSummary
| PipelineComplete
| PipelineFailed.

(** The files the script reads in [data/processed/] and writes in
    [data/final/]; [None] is an absent file.  The summary file is recorded
    as the panel [describe()] was computed from. *)
Record World : Set := mkWorld
  { reit_data_clean_csv : option reit_frame;
    fred_data_clean_csv : option fred_frame;
    reit_fred_analysis_panel_csv : option panel;
    summary_statistics_csv : option panel;
    stdout : list event }.

Definition io (A : Type) : Type := World -> A * World.

Definition ret {A} (a : A) : io A := fun w => (a, w).

Definition bind {A B} (c : io A) (k : A -> io B) : io B :=
  fun w => let (a, w') := c w in k a w'.

Declare Scope io_scope.
Delimit Scope io_scope with io.
Notation "x <- c ;; k" := (bind c (fun x => k))
  (at level 61, c at next level, right associativity) : io_scope.
Notation "c ;; k" := (bind c (fun _ => k))
  (at level 61, right associativity) : io_scope.
Local Open Scope io_scope.

(** The world after the lines [evs] were printed. *)
Definition emit (evs : list event) (w : World) : World :=
  {| reit_data_clean_csv := reit_data_clean_csv w;
     fred_data_clean_csv := fred_data_clean_csv w;
     reit_fred_analysis_panel_csv := reit_fred_analysis_panel_csv w;
     summary_statistics_csv := summary_statistics_csv w;
     stdout := stdout w ++ evs |}.

Definition print (e : event) : io unit := fun w => (tt, emit [e] w).

Definition read_reit : io (option reit_frame) :=
  fun w => (reit_data_clean_csv w, w).

Definition read_fred : io (option fred_frame) :=
  fun w => (fred_data_clean_csv w, w).

Definition write_panel (p : panel) : io unit :=
  fun w => (tt, {| reit_data_clean_csv := reit_data_clean_csv w;
                   fred_data_clean_csv := fred_data_clean_csv w;
                   reit_fred_analysis_panel_csv := Some p;
                   summary_statistics_csv := summary_statistics_csv w;
                   stdout := stdout w |}).

Definition write_summary (p : panel) : io unit :=
  fun w => (tt, {| reit_data_clean_csv := reit_data_clean_csv w;
                   fred_data_clean_csv := fred_data_clean_csv w;
                   reit_fred_analysis_panel_csv := reit_fred_analysis_panel_csv w;
                   summary_statistics_csv := Some p;
                   stdout := stdout w |}).

(** *** [load_processed_data]

    The prints of the date range, the column count and the number of
    distinct tickers are informational and not recorded. *)
Definition load_processed_data : io (option reit_frame * option fred_frame) :=
  print (Banner "STEP 1: Loading Processed Datasets") ;;
  reit_file <- read_reit ;;
  reit_df <- match reit_file with
             | None => print ReitNotFound ;; ret None
             | Some df => print (ReitLoaded (List.length df)) ;; ret (Some df)
             end ;;
  fred_file <- read_fred ;;
  fred_df <- match fred_file with
             | None => print FredNotFound ;; ret None
             | Some df =>
                 print (FredLoaded (List.length (fred_rows df))) ;;
                 ret (Some df)
             end ;;
  ret (reit_df, fred_df).

(** *** [align_temporal_structure] *)

Definition align_date (d : option Timestamp) : option Timestamp :=
  option_map to_month_end d.

Definition align_reit (df : reit_frame) : reit_frame :=
  map (fun r => {| ticker := ticker r; date := align_date (date r);
                   fields := fields r |}) df.

Definition align_fred (df : fred_frame) : fred_frame :=
  {| indicator_columns := indicator_columns df;
     fred_rows := map (fun r => {| fdate := align_date (fdate r);
                                   findicators := findicators r |})
                      (fred_rows df) |}.

Definition align_temporal_structure
  (reit_df : option reit_frame) (fred_df : option fred_frame)
  : io (option reit_frame * option fred_frame) :=
  print (Banner "STEP 2: Align Temporal Structure (Month-End)") ;;
  reit_df <- match reit_df with
             | Some df => print ReitAligned ;; ret (Some (align_reit df))
             | None => ret None
             end ;;
  fred_df <- match fred_df with
             | Some df => print FredAligned ;; ret (Some (align_fred df))
             | None => ret None
             end ;;
  ret (reit_df, fred_df).

(** *** [merge_datasets] *)

Definition date_eq_dec (a b : option Timestamp) : {a = b} + {a <> b}.
Proof. decide equality; apply Timestamp_eq_dec. Defined.

Definition date_eqb (a b : option Timestamp) : bool :=
  if date_eq_dec a b then true else false.

(** The indicator rows whose key equals [k], in table order.  pandas joins
    missing keys with missing keys. *)
Definition matching (k : option Timestamp) (fred_df : fred_frame)
  : list fred_row :=
  filter (fun i => date_eqb k (fdate i)) (fred_rows fred_df).

(** What a left join makes of one left row: one output row per matching
    right row, or one output row with every right column missing. *)
Definition join_row (fred_df : fred_frame) (e : reit_row) : list panel_row :=
  match matching (date e) fred_df with
  | [] => [ {| entity := e;
               indicators := repeat NA (List.length (indicator_columns fred_df)) |} ]
  | ms => map (fun i => {| entity := e; indicators := findicators i |}) ms
  end.

(** [pd.merge(reit_df, fred_df, on='date', how='left')]; the order of the
    left rows is kept. *)
Definition pd_merge_left (reit_df : reit_frame) (fred_df : fred_frame)
  : panel :=
  flat_map (join_row fred_df) reit_df.

Definition merge_datasets
  (reit_df : option reit_frame) (fred_df : option fred_frame)
  : io (option panel) :=
  print (Banner "STEP 3: Merge Datasets") ;;
  match reit_df, fred_df with
  | Some reit_df, Some fred_df =>
      let initial_reit_rows := List.length reit_df in
      let panel := pd_merge_left reit_df fred_df in
      print (MergeSummary initial_reit_rows
               (List.length (fred_rows fred_df)) (List.length panel)) ;;
      let rows_lost :=
        (Z.of_nat initial_reit_rows - Z.of_nat (List.length panel))%Z in
      (if (0 <? rows_lost)%Z then print (RowsLost rows_lost)
       else print NoDataLoss) ;;
      ret (Some panel)
  | _, _ => print CannotMerge ;; ret None
  end.

(** *** [validate_merge_integrity]

    The per-column missing-value report and the date coverage lines are
    informational and not recorded. *)

Definition string_option_eq_dec (a b : option string) : {a = b} + {a <> b}.
Proof. decide equality; apply string_dec. Defined.

(** [Series.nunique()]: distinct values, missing ones left out. *)
Definition nunique {A} (eq_dec : forall a b : option A, {a = b} + {a <> b})
  (l : list (option A)) : nat :=
  List.length (nodup eq_dec (filter (fun x => match x with
                                              | Some _ => true
                                              | None => false
                                              end) l)).

Definition validate_merge_integrity (p : panel) : io unit :=
  print (Banner "STEP 4: Merge Integrity Validation") ;;
  print (PanelDimensions (List.length p)) ;;
  let n_tickers :=
    nunique string_option_eq_dec (map (fun r => ticker (entity r)) p) in
  let n_months := nunique date_eq_dec (map (fun r => date (entity r)) p) in
  let expected_obs := (n_tickers * n_months)%nat in
  let actual_obs := List.length p in
  print (EntityCoverage n_tickers n_months expected_obs actual_obs
           (Z.of_nat expected_obs - Z.of_nat actual_obs)%Z).

(** *** [save_final_panel] *)

(** Order of one sort key, missing values last. *)
Definition compare_na_last {A} (cmp : A -> A -> comparison)
  (a b : option A) : comparison :=
  match a, b with
  | Some x, Some y => cmp x y
  | Some _, None => Lt
  | None, Some _ => Gt
  | None, None => Eq
  end.

Definition row_leb (a b : panel_row) : bool :=
  match compare_na_last String.compare
          (ticker (entity a)) (ticker (entity b)) with
  | Lt => true
  | Gt => false
  | Eq => match compare_na_last timestamp_compare
                  (date (entity a)) (date (entity b)) with
          | Gt => false
          | _ => true
          end
  end.

Fixpoint insert_sorted (r : panel_row) (l : panel) : panel :=
  match l with
  | [] => [r]
  | x :: l' => if row_leb r x then r :: l else x :: insert_sorted r l'
  end.

(** [panel.sort_values(['ticker', 'date'])], a stable sort. *)
Fixpoint sort_values (p : panel) : panel :=
  match p with
  | [] => []
  | r :: p' => insert_sorted r (sort_values p')
  end.

Definition save_final_panel (p : panel) : io panel :=
  print (Banner "STEP 5: Saving Final Analysis Panel") ;;
  let p := sort_values p in
  write_panel p ;;
  print (SavedPanel (List.length p)) ;;
  ret p.

(** *** [create_data_summary] *)

Definition create_data_summary (p : panel) : io unit :=
  print (Banner "STEP 6: Create Summary Statistics") ;;
  write_summary p ;;
  print SavedSummary.

(** *** [main] *)

Definition main : io unit :=
  print (Banner "MERGE INTO FINAL ANALYSIS PANEL") ;;
  dfs <- load_processed_data ;;
  match dfs with
  | (Some reit_df, Some fred_df) =>
      dfs <- align_temporal_structure (Some reit_df) (Some fred_df) ;;
      p <- merge_datasets (fst dfs) (snd dfs) ;;
      match p with
      | Some p =>
          validate_merge_integrity p ;;
          p <- save_final_panel p ;;
          create_data_summary p ;;
          print PipelineComplete
      | None => ret tt
      end
  | _ => print PipelineFailed
  end.

(** *** The cleaners' files as the merge stage reads them

    [save_cleaned_data] and [save_fred_data] write the cleaned tables with
    [to_csv]; [load_processed_data] reads them back.  The round trip is
    taken as value preserving. *)

Definition of_reit_clean (df : Reit.DataFrame) : reit_frame :=
  map (fun r =>
         {| ticker := match Reit.ticker r with Str s => Some s | _ => None end;
            date := match Reit.date r with TS t => Some t | _ => None end;
            fields := Reit.usdret r :: map snd (Reit.extra r) |}) df.

Definition of_fred_clean (df : Fred.DataFrame) : fred_frame :=
  {| indicator_columns := Fred.columns df;
     fred_rows :=
       map (fun r =>
              {| fdate := match Fred.date r with TS t => Some t | _ => None end;
                 findicators := map Num (Fred.vals r) |}) (Fred.rows df) |}.

Definition initial_world (reit : option reit_frame) (fred : option fred_frame)
  : World :=
  {| reit_data_clean_csv := reit; fred_data_clean_csv := fred;
     reit_fred_analysis_panel_csv := None; summary_statistics_csv := None;
     stdout := [] |}.

End Merge.

(** ** The specification's vocabulary

    Definitions that follow the wording of the specification, to be compared
    with what the code computes. *)

Module Spec.
Import Pandas.

(** Two timestamps fall in the same calendar month. *)
Definition same_month (a b : Timestamp) : Prop :=
  year a = year b /\ month a = month b.

(** Day count of the first day of the month that follows the month of [t]. *)
Definition first_of_next_month (t : Timestamp) : Z :=
  (if month t =? 12 then days_from_civil (year t + 1) 1 1
   else days_from_civil (year t) (month t + 1) 1)%Z.

(** [e] is the last calendar day of the month [t] belongs to: a valid date
    of that month, not before [t]'s day, at midnight, whose following day
    is the first day of the next month. *)
Definition last_day_of_month_of (t e : Timestamp) : Prop :=
  same_month e t /\
  valid_timestamp e = true /\
  (day t <= day e)%Z /\
  time_ns e = 0%Z /\
  (unix_date e + 1)%Z = first_of_next_month t.

(** The calendar month of a date value, when it has one. *)
Definition month_of_cell (c : cell) : option Period :=
  match c with
  | TS t => Some (to_period_M t)
  | _ => None
  end.

(** "First occurrence in input order": the rows of [l] no earlier row of
    which has the same key. *)
Definition first_occurrences {A K}
  (eq_dec : forall a b : K, {a = b} + {a <> b}) (key : A -> K) (l : list A)
  : list A :=
  map snd
    (filter (fun ir => if in_dec eq_dec (key (snd ir))
                            (map key (firstn (fst ir) l))
                       then false else true)
            (combine (seq 0 (List.length l)) l)).

End Spec.

(** ** Worked tables *)

Module Examples.
Import Pandas.

(** The float a decimal literal denotes. *)
Definition dec (s : string) : float :=
  match parse_decimal s with Some x => x | None => nan end.

Definition ymd (y m d : Z) : Timestamp := mkTimestamp y m d 0.

(** The literal scenario of the specification: three entity rows, two
    indicator months. *)
Definition entity_table : Merge.reit_frame :=
  [ Merge.mkReit (Some "AAA"%string) (Some (ymd 2020 1 31)) [Num (dec "0.05")];
    Merge.mkReit (Some "AAA"%string) (Some (ymd 2020 2 29)) [Num (dec "0.03")];
    Merge.mkReit (Some "BBB"%string) (Some (ymd 2020 1 31)) [Num (dec "-0.02")] ].

Definition indicator_table : Merge.fred_frame :=
  Merge.mkFredFrame ["rate"%string]
    [ Merge.mkFred (Some (ymd 2020 1 31)) [Num (dec "1.5")];
      Merge.mkFred (Some (ymd 2020 2 29)) [Num (dec "1.6")] ].

(** Gap handling: an entity row of March 2020, a month the indicator table
    lacks. *)
Definition march_entity : Merge.reit_frame :=
  [ Merge.mkReit (Some "AAA"%string) (Some (ymd 2020 3 31)) [Num (dec "0.01")] ].

(** Duplicate guard: one entity row, two indicator rows for 2020-01-31. *)
Definition single_entity : Merge.reit_frame :=
  [ Merge.mkReit (Some "AAA"%string) (Some (ymd 2020 1 31)) [Num (dec "0.05")] ].

Definition duplicated_indicator : Merge.fred_frame :=
  Merge.mkFredFrame ["rate"%string]
    [ Merge.mkFred (Some (ymd 2020 1 31)) [Num (dec "1.5")];
      Merge.mkFred (Some (ymd 2020 1 31)) [Num (dec "1.7")] ].

(** A table with its header and no row. *)
Definition empty_entity : Merge.reit_frame := [].

(** Raw REIT rows as [pd.read_csv] delivers a column holding text. *)
Definition raw_row (ticker date usdret : string) : Reit.row :=
  Reit.mkRow (Str ticker) (Str date) (Str usdret) [].

(** One ticker observed twice in January 2020, on different days. *)
Definition raw_two_days : Reit.DataFrame :=
  [ raw_row "AAA" "2020-01-15" "0.01"; raw_row "AAA" "2020-01-31" "0.02" ].

(** One observation. *)
Definition raw_one : Reit.DataFrame := [ raw_row "AAA" "2020-01-31" "0.05" ].

(** A return column holding a letter code instead of a number. *)
Definition raw_text_return : Reit.DataFrame :=
  [ raw_row "AAA" "2020-01-31" "C" ].

(** Two rows of one (ticker, date) key, the first with a return of 950%. *)
Definition raw_outlier_first : Reit.DataFrame :=
  [ raw_row "aaa" "2020-01-31" "9.5"; raw_row "AAA" "2020-01-31" "0.05" ].

(** Two rows of one key, both valid. *)
Definition raw_duplicate : Reit.DataFrame :=
  [ raw_row "aaa" "2020-01-31" "0.07"; raw_row "AAA" "2020-01-31" "0.05";
    raw_row "BBB" "2020-01-31" "0.02" ].

(** The letter code next to a return of 950%. *)
Definition raw_text_and_outlier : Reit.DataFrame :=
  [ raw_row "AAA" "2020-01-31" "C"; raw_row "BBB" "2020-01-31" "9.5" ].

(** A weekly series: two observations in January 2020. *)
Definition raw_weekly : Fred.DataFrame :=
  Fred.mkFrame ["MORTGAGE30US"%string]
    [ Fred.mkRow (Str "2020-01-02") [dec "3.72"];
      Fred.mkRow (Str "2020-01-09") [dec "3.64"] ].

(** A monthly series. *)
Definition raw_monthly : Fred.DataFrame :=
  Fred.mkFrame ["UNRATE"%string]
    [ Fred.mkRow (Str "2020-01-01") [dec "3.5"];
      Fred.mkRow (Str "2020-02-01") [dec "3.5"];
      Fred.mkRow (Str "2020-03-01") [dec "4.4"] ].

Definition cleaned_or_empty (r : result Fred.DataFrame) : Fred.DataFrame :=
  match r with Ok df => df | Raise _ => Fred.mkFrame [] [] end.

Definition cleaned_monthly : Fred.DataFrame :=
  Eval vm_compute in
    cleaned_or_empty (Fred.clean_fred_data csv_scalars raw_monthly).

Definition cleaned_weekly : Fred.DataFrame :=
  Eval vm_compute in
    cleaned_or_empty (Fred.clean_fred_data csv_scalars raw_weekly).

Definition cleaned_one : Reit.DataFrame :=
  Eval vm_compute in Reit.clean_reit_data csv_scalars raw_one.

End Examples.

(** ** The scripts around the two cleaners

    [main] of [fetch_reit_data.py] and of [fetch_fred_data.py], with the
    functions they call.  Of the lines the scripts print, the banners, the
    lines about absent or empty data and the closing row counts are
    recorded; the other progress lines are left out. *)

Module Script.

(** A script run: a computation over a world [W] of files and output. *)
Definition io (W A : Type) : Type := W -> A * W.

Definition ret {W A} (a : A) : io W A := fun w => (a, w).

Definition bind {W A B} (c : io W A) (k : A -> io W B) : io W B :=
  fun w => let (a, w') := c w in k a w'.

Inductive event : Set :=
| Banner (title : string)
| RawNotFound
| Loaded (n_rows : nat)
| FinalSample (final_rows : nat) (rows_removed : Z)
| FinalDataset (n_rows : nat)
| NoDataToSummarize
| Summary (n_unique n_rows : nat)
| Observations (n_rows : nat)
| Saved (n_rows : nat)
| PipelineComplete
| PipelineFailed.

End Script.

Module ReitScript.
Import Pandas Script.

(** [data/raw/REIT_sample_2000_2024_All_Variables.csv] as [pd.read_csv]
    reads it, [data/processed/reit_data_clean.csv], and standard output;
    [None] is an absent file. *)
Record World : Type := mkWorld
  { raw_csv : option Reit.DataFrame;
    reit_data_clean_csv : option Reit.DataFrame;
    stdout : list event }.

Definition print (e : event) : io World unit :=
  fun w => (tt, {| raw_csv := raw_csv w;
                   reit_data_clean_csv := reit_data_clean_csv w;
                   stdout := stdout w ++ [e] |}).

Definition to_csv (df : Reit.DataFrame) : io World unit :=
  fun w => (tt, {| raw_csv := raw_csv w;
                   reit_data_clean_csv := Some df;
                   stdout := stdout w |}).

Definition load_reit_data : io World (option Reit.DataFrame) :=
  bind (print (Banner "STEP 1: Loading REIT Master Panel Data")) (fun _ =>
  fun w =>
    match raw_csv w with
    | None => bind (print RawNotFound) (fun _ => ret None) w
    | Some df =>
        bind (print (Loaded (List.length df))) (fun _ => ret (Some df)) w
    end).

(** [df['ticker'].nunique()] *)
Definition nunique_ticker (df : Reit.DataFrame) : nat :=
  List.length (nodup cell_eq_dec (filter notnull (map Reit.ticker df))).

Definition summarize_data (df : option Reit.DataFrame) : io World unit :=
  bind (print (Banner "STEP 3: Summary Statistics")) (fun _ =>
  match df with
  | None => print NoDataToSummarize
  | Some df =>
      if (List.length df =? 0)%nat then print NoDataToSummarize
      else print (Summary (nunique_ticker df) (List.length df))
  end).

Definition save_cleaned_data (df : Reit.DataFrame) : io World unit :=
  bind (print (Banner "STEP 4: Saving Cleaned Data")) (fun _ =>
  bind (to_csv df) (fun _ =>
  print (Saved (List.length df)))).

Section Main.

Variable sc : Scalars.

(** [clean_reit_data] with its opening banner and its closing lines. *)
Definition clean_step (df : Reit.DataFrame) : io World Reit.DataFrame :=
  bind (print (Banner "STEP 2: Data Cleaning & Quality Checks")) (fun _ =>
  let initial_rows := List.length df in
  let df := Reit.clean_reit_data sc df in
  let final_rows := List.length df in
  bind (print (FinalSample final_rows
                 (Z.of_nat initial_rows - Z.of_nat final_rows))) (fun _ =>
  ret df)).

Definition main : io World unit :=
  bind (print (Banner "REIT DATA FETCH & CLEAN PIPELINE")) (fun _ =>
  bind load_reit_data (fun df =>
  match df with
  | Some df =>
      bind (clean_step df) (fun df =>
      bind (summarize_data (Some df)) (fun _ =>
      bind (save_cleaned_data df) (fun _ =>
      print PipelineComplete)))
  | None => print PipelineFailed
  end)).

End Main.

End ReitScript.

Module FredScript.
Import Pandas Script.

(** The table [fetch_all_fred_data] returned (the network and the random
    demo series are outside the model), [data/processed/fred_data_clean.csv],
    standard output, and the exception that ended the run, if any. *)
Record World : Type := mkWorld
  { fetched : option Fred.DataFrame;
    fred_data_clean_csv : option Fred.DataFrame;
    stdout : list event;
    raised : option exn }.

Definition print (e : event) : io World unit :=
  fun w => (tt, {| fetched := fetched w;
                   fred_data_clean_csv := fred_data_clean_csv w;
                   stdout := stdout w ++ [e]; raised := raised w |}).

Definition to_csv (df : Fred.DataFrame) : io World unit :=
  fun w => (tt, {| fetched := fetched w;
                   fred_data_clean_csv := Some df;
                   stdout := stdout w; raised := raised w |}).

Definition raise (e : exn) : io World unit :=
  fun w => (tt, {| fetched := fetched w;
                   fred_data_clean_csv := fred_data_clean_csv w;
                   stdout := stdout w; raised := Some e |}).

Definition summarize_fred_data (df : option Fred.DataFrame) : io World unit :=
  bind (print (Banner "STEP 3: Summary Statistics")) (fun _ =>
  match df with
  | None => print NoDataToSummarize
  | Some df =>
      if (List.length (Fred.rows df) =? 0)%nat then print NoDataToSummarize
      else print (Observations (List.length (Fred.rows df)))
  end).

Definition save_fred_data (df : Fred.DataFrame) : io World unit :=
  bind (print (Banner "STEP 4: Saving FRED Data")) (fun _ =>
  bind (to_csv df) (fun _ =>
  print (Saved (List.length (Fred.rows df))))).

Section Main.

Variable sc : Scalars.

Definition main : io World unit :=
  bind (print (Banner "FRED ECONOMIC DATA FETCH PIPELINE")) (fun _ =>
  fun w =>
    match fetched w with
    | Some df =>
        bind (print (Banner "STEP 2: Data Cleaning & Transformation")) (fun _ =>
        match Fred.clean_fred_data sc df with
        | Raise e => raise e
        | Ok df =>
            bind (print (FinalDataset (List.length (Fred.rows df)))) (fun _ =>
            bind (summarize_fred_data (Some df)) (fun _ =>
            bind (save_fred_data df) (fun _ =>
            print PipelineComplete)))
        end) w
    | None => print PipelineFailed w
    end).

End Main.

End FredScript.

(** ** Further vocabulary *)

Module Shape.
Import Pandas.

(** [out] is [l] with some rows left out, the others in their order. *)
Definition masked {A} (out l : list A) : Prop :=
  exists mask : list bool,
    List.length mask = List.length l /\ out = boolean_mask mask l.

(** What the cleaner makes of the cells of one raw REIT row. *)
Definition normalise (sc : Scalars) (r : Reit.row) : Reit.row :=
  {| Reit.ticker := Str (upper sc (astype_str sc (Reit.ticker r)));
     Reit.date := to_datetime_coerce sc (Reit.date r);
     Reit.usdret := Num (to_numeric_coerce sc (Reit.usdret r));
     Reit.extra := map (Reit.coerce_extra sc) (Reit.extra r) |}.

(** A cleaned REIT row: uppercased ticker, timestamp, return in the
    interval, other columns coerced. *)
Definition cleaned_row (sc : Scalars) (r : Reit.row) : Prop :=
  exists s t x e,
    r = Reit.mkRow (Str (upper sc s)) (TS t) (Num x)
                   (map (Reit.coerce_extra sc) e) /\
    is_nan x = false /\ fleb x f_five = true /\ fleb f_minus_one x = true.

(** A date cell that is missing or the last day of a month. *)
Definition month_end_or_missing (d : cell) : Prop :=
  isnull d = true \/ exists t, d = TS (to_month_end t).

(** The first [k] rows of the table hold a NaN in the column at [j]. *)
Definition nan_prefix (k j : nat) (rs : list Fred.row) : Prop :=
  forall i r, (i < k)%nat -> nth_error rs i = Some r ->
              nth_error (Fred.vals r) j = Some nan.

(** The columns [cols'] are the columns [cols] followed by new ones taken
    from [names]. *)
Definition extended_by (names cols cols' : list string) : Prop :=
  exists added, cols' = cols ++ added /\ incl added names.

(** Every row of the table has one value per series column. *)
Definition rectangular (df : Fred.DataFrame) : Prop :=
  Forall (fun r => List.length (Fred.vals r) = List.length (Fred.columns df))
         (Fred.rows df).

(** The (ticker, month) key of a panel row. *)
Definition panel_key (r : Merge.panel_row)
  : option string * option Timestamp :=
  (Merge.ticker (Merge.entity r), Merge.date (Merge.entity r)).

End Shape.

(** ** Further worked tables *)

Module MoreExamples.
Import Pandas.

(** Fourteen months of one price index, January 2019 to February 2020. *)
Definition raw_cpi : Fred.DataFrame :=
  Fred.mkFrame ["CPIAUCSL"%string]
    (map (fun i => Fred.mkRow
                     (TS (mkTimestamp (2019 + Z.of_nat i / 12)
                                      (Z.of_nat i mod 12 + 1) 1 0))
                     [float_of_Z (250 + Z.of_nat i)])
         (seq 0 14)).

Definition cleaned_cpi : Fred.DataFrame :=
  Eval vm_compute in
    Examples.cleaned_or_empty (Fred.clean_fred_data csv_scalars raw_cpi).

(** A raw REIT file of which cleaning leaves nothing. *)
Definition reit_world_all_dropped : ReitScript.World :=
  ReitScript.mkWorld (Some Examples.raw_text_and_outlier) None [].

End MoreExamples.

(* ====================================================================== *)
(** * Part II: properties                                                  *)
(* ====================================================================== *)

Import Pandas.

(** ** Calendar *)

Lemma days_in_month_bounds (y m : Z) : (28 <= days_in_month y m <= 31)%Z.
Proof.
  unfold days_in_month.
  destruct (m =? 2)%Z; [destruct (is_leap_year y); lia |].
  destruct ((m =? 4) || (m =? 6) || (m =? 9) || (m =? 11))%Z; lia.
Qed.

(** February ends the day before the first of March, leap years included. *)
Lemma february_end (y : Z) :
  (days_from_civil y 2 (days_in_month y 2) + 1 = days_from_civil y 3 1)%Z.
Proof.
  unfold days_from_civil, days_in_month, is_leap_year.
  simpl Z.eqb. simpl Z.leb. cbv iota.
  change ((2 + 9) mod 12)%Z with 11%Z. change ((3 + 9) mod 12)%Z with 0%Z.
  change ((153 * 11 + 2) / 5)%Z with 337%Z.
  change ((153 * 0 + 2) / 5)%Z with 0%Z.
  destruct (y mod 4 =? 0)%Z eqn:H4; destruct (y mod 100 =? 0)%Z eqn:H100;
    destruct (y mod 400 =? 0)%Z eqn:H400; simpl;
    rewrite ?Z.eqb_eq, ?Z.eqb_neq in *;
    Z.to_euclidean_division_equations; lia.
Qed.

(** The day after the last day of a month is the first of the next month. *)
Lemma month_end_successor (t : Timestamp) :
  (1 <= month t <= 12)%Z ->
  (unix_date (to_month_end t) + 1)%Z = Spec.first_of_next_month t.
Proof.
  intros Hm. unfold unix_date, to_month_end, to_timestamp_M, to_period_M,
    Spec.first_of_next_month. simpl.
  assert (Hcases : (month t = 1 \/ month t = 2 \/ month t = 3 \/ month t = 4
          \/ month t = 5 \/ month t = 6 \/ month t = 7 \/ month t = 8
          \/ month t = 9 \/ month t = 10 \/ month t = 11 \/ month t = 12)%Z)
    by lia.
  destruct Hcases as [H|[H|[H|[H|[H|[H|[H|[H|[H|[H|[H|H]]]]]]]]]]];
    rewrite H; try apply february_end;
    unfold days_from_civil, days_in_month; simpl;
    replace (year t + 1 - 1)%Z with (year t) by lia; lia.
Qed.

Lemma to_month_end_valid (t : Timestamp) :
  valid_timestamp t = true -> valid_timestamp (to_month_end t) = true.
Proof.
  unfold valid_timestamp, to_month_end, to_timestamp_M, to_period_M. simpl.
  intros H. pose proof (days_in_month_bounds (year t) (month t)).
  repeat (apply andb_prop in H; destruct H as [H ?]).
  repeat (apply andb_true_intro; split); try assumption; lia.
Qed.

(** ** Float comparisons *)

Lemma SFcompare_swap (a b : spec_float) :
  SFcompare b a = option_map CompOpp (SFcompare a b).
Proof.
  destruct a as [sa | sa | | sa ma ea], b as [sb | sb | | sb mb eb];
    try destruct sa; try destruct sb; simpl; try reflexivity;
    rewrite (Z.compare_antisym ea eb);
    destruct (ea ?= eb)%Z; simpl; try reflexivity;
    change Eq with (CompOpp Eq) at 1;
    rewrite <- (Pos.compare_cont_antisym); simpl; try reflexivity.
Qed.

(** Two numbers, neither a NaN, are ordered one way or the other. *)
Lemma fltb_false_fleb (a b : float) :
  fltb a b = false -> is_nan a = false -> is_nan b = false -> fleb b a = true.
Proof.
  unfold fltb, fleb, SFltb, SFleb. rewrite (SFcompare_swap a b).
  destruct (SFcompare a b) as [[] |] eqn:H; simpl;
    try reflexivity; try discriminate.
  intros _ Ha Hb. destruct a, b; simpl in *; discriminate.
Qed.

(** ** The left join *)

Section LeftJoin.

Import Merge.

Variable fred_df : fred_frame.

Lemma date_eqb_true (a b : option Timestamp) : date_eqb a b = true <-> a = b.
Proof. unfold date_eqb. destruct (date_eq_dec a b); split; congruence. Qed.

Lemma matching_In (k : option Timestamp) (i : fred_row) :
  In i (matching k fred_df) <-> In i (fred_rows fred_df) /\ fdate i = k.
Proof.
  unfold matching. rewrite filter_In, date_eqb_true. intuition congruence.
Qed.

(** With one row per key at most, a key selects one row at most. *)
Lemma filter_key_unique {A K} (f : A -> K) (p : A -> bool) (k : K) (l : list A) :
  NoDup (map f l) -> (forall x, p x = true -> f x = k) ->
  (List.length (filter p l) <= 1)%nat.
Proof.
  intros Hnd Hp. induction l as [| x l IH]; simpl; [lia |].
  inversion Hnd as [| ? ? Hx Hl]; subst.
  destruct (p x) eqn:Hpx; [| apply IH; assumption].
  simpl. assert (Hnil : filter p l = []).
  { destruct (filter p l) as [| y tl] eqn:Hf; [reflexivity |].
    exfalso. apply Hx.
    assert (Hy : In y (filter p l)) by (rewrite Hf; left; reflexivity).
    apply filter_In in Hy. destruct Hy as [Hy Hpy].
    rewrite (Hp x Hpx), <- (Hp y Hpy). apply in_map. assumption. }
  rewrite Hnil. simpl. lia.
Qed.

Lemma matching_at_most_one (k : option Timestamp) :
  NoDup (map fdate (fred_rows fred_df)) ->
  (List.length (matching k fred_df) <= 1)%nat.
Proof.
  intros Hnd. unfold matching. apply filter_key_unique with (f := fdate) (k := k).
  - assumption.
  - intros x Hx. apply date_eqb_true in Hx. congruence.
Qed.

(** Every output row of a left row carries that row, and its indicator
    fields are those of one matching indicator row, or all missing when no
    indicator row matches. *)
Lemma join_row_spec (e : reit_row) (r : panel_row) :
  In r (join_row fred_df e) ->
  entity r = e /\
  ((exists i, In i (fred_rows fred_df) /\ fdate i = date e /\
              indicators r = findicators i) \/
   ((forall i, In i (fred_rows fred_df) -> fdate i <> date e) /\
    indicators r = repeat NA (List.length (indicator_columns fred_df)))).
Proof.
  unfold join_row. destruct (matching (date e) fred_df) as [| i0 ms] eqn:Hm.
  - intros [Hr | []]. subst r. simpl. split; [reflexivity |]. right.
    split; [| reflexivity]. intros i Hi Hd.
    assert (Hin : In i (matching (date e) fred_df))
      by (apply matching_In; split; assumption).
    rewrite Hm in Hin. destruct Hin.
  - intros Hr. apply in_map_iff in Hr. destruct Hr as (i & Hr & Hi). subst r.
    simpl. split; [reflexivity |]. left. exists i.
    rewrite <- Hm in Hi. apply matching_In in Hi. intuition.
Qed.

Lemma join_row_length (e : reit_row) :
  List.length (join_row fred_df e)
    = Nat.max 1 (List.length (matching (date e) fred_df)).
Proof.
  unfold join_row. destruct (matching (date e) fred_df) as [| i0 ms]; simpl.
  - reflexivity.
  - rewrite length_map. reflexivity.
Qed.

Lemma pd_merge_left_length (reit_df : reit_frame) :
  List.length (pd_merge_left reit_df fred_df)
    = list_sum (map (fun e => Nat.max 1 (List.length (matching (date e) fred_df)))
                    reit_df).
Proof.
  unfold pd_merge_left. induction reit_df as [| e l IH]; simpl; [reflexivity |].
  rewrite length_app, join_row_length, IH. reflexivity.
Qed.

(** A left join never loses a left row. *)
Lemma pd_merge_left_no_loss (reit_df : reit_frame) :
  (List.length reit_df <= List.length (pd_merge_left reit_df fred_df))%nat.
Proof.
  unfold pd_merge_left. induction reit_df as [| e l IH]; simpl; [lia |].
  rewrite length_app, join_row_length.
  pose proof (Nat.le_max_l 1 (List.length (matching (date e) fred_df))).
  lia.
Qed.

Lemma pd_merge_left_In (reit_df : reit_frame) (r : panel_row) :
  In r (pd_merge_left reit_df fred_df) ->
  exists e, In e reit_df /\ In r (join_row fred_df e).
Proof.
  unfold pd_merge_left. rewrite in_flat_map. trivial.
Qed.

(** With one indicator row per key at most, the join is row for row. *)
Lemma pd_merge_left_entities (reit_df : reit_frame) :
  NoDup (map fdate (fred_rows fred_df)) ->
  map entity (pd_merge_left reit_df fred_df) = reit_df.
Proof.
  intros Hnd. unfold pd_merge_left.
  induction reit_df as [| e l IH]; simpl; [reflexivity |].
  rewrite map_app, IH. f_equal.
  pose proof (matching_at_most_one (date e) Hnd) as Hlen.
  unfold join_row. destruct (matching (date e) fred_df) as [| i0 [| i1 ms]];
    simpl in *; try reflexivity; lia.
Qed.

End LeftJoin.

(** ** Running the merge script *)

Section MergeRuns.

Import Merge.

Lemma emit_emit (a b : list event) (w : World) :
  emit b (emit a w) = emit (a ++ b) w.
Proof. unfold emit. simpl. rewrite <- app_assoc. reflexivity. Qed.

Lemma merge_datasets_run (reit_df : reit_frame) (fred_df : fred_frame) (w : World) :
  merge_datasets (Some reit_df) (Some fred_df) w
    = (Some (pd_merge_left reit_df fred_df),
       emit [Banner "STEP 3: Merge Datasets";
             MergeSummary (List.length reit_df)
                          (List.length (fred_rows fred_df))
                          (List.length (pd_merge_left reit_df fred_df));
             NoDataLoss] w).
Proof.
  unfold merge_datasets, bind, print, ret.
  pose proof (pd_merge_left_no_loss fred_df reit_df) as Hle.
  destruct (0 <? Z.of_nat (List.length reit_df)
                 - Z.of_nat (List.length (pd_merge_left reit_df fred_df)))%Z
    eqn:Hlt.
  - apply Z.ltb_lt in Hlt. lia.
  - rewrite !emit_emit. reflexivity.
Qed.

Lemma merge_datasets_missing (reit_df : option reit_frame)
  (fred_df : option fred_frame) (w : World) :
  reit_df = None \/ fred_df = None ->
  merge_datasets reit_df fred_df w
    = (None, emit [Banner "STEP 3: Merge Datasets"; CannotMerge] w).
Proof.
  intros H. unfold merge_datasets, bind, print, ret.
  destruct reit_df, fred_df; destruct H; try discriminate;
    rewrite !emit_emit; reflexivity.
Qed.

End MergeRuns.

Section MainRuns.

Import Merge.

(** The run of [main] when both processed files are present: nothing
    between loading and saving depends on how many rows the tables have. *)
Lemma main_run_present (reit_df : reit_frame) (fred_df : fred_frame)
  (old_panel old_summary : option panel) (log : list event) :
  let p := pd_merge_left (align_reit reit_df) (align_fred fred_df) in
  let n_tickers :=
    nunique string_option_eq_dec (map (fun r => ticker (entity r)) p) in
  let n_months := nunique date_eq_dec (map (fun r => date (entity r)) p) in
  main (mkWorld (Some reit_df) (Some fred_df) old_panel old_summary log)
    = (tt, mkWorld (Some reit_df) (Some fred_df)
             (Some (sort_values p)) (Some (sort_values p))
             (log ++
              [Banner "MERGE INTO FINAL ANALYSIS PANEL";
               Banner "STEP 1: Loading Processed Datasets";
               ReitLoaded (List.length reit_df);
               FredLoaded (List.length (fred_rows fred_df));
               Banner "STEP 2: Align Temporal Structure (Month-End)";
               ReitAligned; FredAligned;
               Banner "STEP 3: Merge Datasets";
               MergeSummary (List.length (align_reit reit_df))
                            (List.length (fred_rows (align_fred fred_df)))
                            (List.length p);
               NoDataLoss;
               Banner "STEP 4: Merge Integrity Validation";
               PanelDimensions (List.length p);
               EntityCoverage n_tickers n_months (n_tickers * n_months)
                 (List.length p)
                 (Z.of_nat (n_tickers * n_months) - Z.of_nat (List.length p));
               Banner "STEP 5: Saving Final Analysis Panel";
               SavedPanel (List.length (sort_values p));
               Banner "STEP 6: Create Summary Statistics";
               SavedSummary;
               PipelineComplete])).
Proof.
  intros p n_tickers n_months. unfold main.
  cbv [bind load_processed_data print ret read_reit read_fred emit
       reit_data_clean_csv fred_data_clean_csv reit_fred_analysis_panel_csv
       summary_statistics_csv stdout align_temporal_structure fst snd].
  rewrite merge_datasets_run.
  cbv [bind validate_merge_integrity save_final_panel create_data_summary
       print ret write_panel write_summary emit
       reit_data_clean_csv fred_data_clean_csv reit_fred_analysis_panel_csv
       summary_statistics_csv stdout].
  rewrite <- !app_assoc. reflexivity.
Qed.

(** The run of [main] when a processed file is absent. *)
Lemma main_run_missing (w : World) :
  reit_data_clean_csv w = None \/ fred_data_clean_csv w = None ->
  main w
    = (tt, emit ([Banner "MERGE INTO FINAL ANALYSIS PANEL";
                  Banner "STEP 1: Loading Processed Datasets"]
                 ++ match reit_data_clean_csv w with
                    | None => [ReitNotFound]
                    | Some df => [ReitLoaded (List.length df)]
                    end
                 ++ match fred_data_clean_csv w with
                    | None => [FredNotFound]
                    | Some df => [FredLoaded (List.length (fred_rows df))]
                    end
                 ++ [PipelineFailed]) w).
Proof.
  destruct w as [reit fred op os log]. simpl. intros H.
  unfold main.
  cbv [bind load_processed_data print ret read_reit read_fred emit
       reit_data_clean_csv fred_data_clean_csv reit_fred_analysis_panel_csv
       summary_statistics_csv stdout].
  destruct reit as [reit |], fred as [fred |]; destruct H; try discriminate;
    cbv [bind print ret emit reit_data_clean_csv fred_data_clean_csv
         reit_fred_analysis_panel_csv summary_statistics_csv stdout];
    rewrite <- !app_assoc; reflexivity.
Qed.

End MainRuns.

(** ** Masks and duplicates *)

Section Masks.

Lemma boolean_mask_map {A} (p : A -> bool) (l : list A) :
  boolean_mask (map p l) l = filter p l.
Proof.
  induction l as [| x l IH]; simpl; [reflexivity |].
  rewrite IH. reflexivity.
Qed.

Lemma filter_length_zero {A} (p : A -> bool) (l : list A) :
  List.length (filter p l) = 0%nat -> filter (fun x => negb (p x)) l = l.
Proof.
  induction l as [| x l IH]; simpl; [reflexivity |].
  destruct (p x); simpl; [discriminate |]. intros H. rewrite IH; auto.
Qed.

Context {A K : Type}.
Variable eq_dec : forall a b : K, {a = b} + {a <> b}.
Variable key : A -> K.

(** Rows kept by [drop_duplicates(keep='first')] when the keys in [seen]
    were met before. *)
Lemma keep_first_from_In (seen : list K) (l : list A) (x : A) :
  In x (boolean_mask (map negb (duplicated_from eq_dec seen (map key l))) l) ->
  In x l /\ ~ In (key x) seen.
Proof.
  revert seen. induction l as [| y l IH]; intros seen; simpl; [tauto |].
  destruct (in_dec eq_dec (key y) seen) as [Hin | Hnin]; simpl.
  - intros H. apply IH in H. tauto.
  - intros [H | H].
    + subst y. tauto.
    + apply IH in H. simpl in H. tauto.
Qed.

Lemma keep_first_from_NoDup (seen : list K) (l : list A) :
  NoDup (map key
           (boolean_mask (map negb (duplicated_from eq_dec seen (map key l))) l)).
Proof.
  revert seen. induction l as [| y l IH]; intros seen; simpl; [constructor |].
  destruct (in_dec eq_dec (key y) seen) as [Hin | Hnin]; simpl.
  - apply IH.
  - constructor; [| apply IH].
    intros H. apply in_map_iff in H. destruct H as (x & Hk & Hx).
    apply keep_first_from_In in Hx. destruct Hx as [_ Hx]. apply Hx.
    rewrite Hk. left. reflexivity.
Qed.

(** Without a marked row nothing is dropped. *)
Lemma no_duplicate_marked (seen : list K) (l : list A) :
  List.length (boolean_mask (duplicated_from eq_dec seen (map key l)) l) = 0%nat ->
  boolean_mask (map negb (duplicated_from eq_dec seen (map key l))) l = l.
Proof.
  revert seen. induction l as [| y l IH]; intros seen; simpl; [reflexivity |].
  destruct (in_dec eq_dec (key y) seen); simpl; [discriminate |].
  intros H. rewrite IH; auto.
Qed.

(** The mask of [duplicated] against the wording "no earlier row has the
    same key". *)
Lemma keep_first_from_positions (seen : list K) (pre l : list A) :
  (forall k, In k seen <-> In k (map key pre)) ->
  boolean_mask (map negb (duplicated_from eq_dec seen (map key l))) l
  = map snd
      (filter (fun ir => if in_dec eq_dec (key (snd ir))
                              (map key (firstn (fst ir) (pre ++ l)))
                         then false else true)
              (combine (seq (List.length pre) (List.length l)) l)).
Proof.
  revert seen pre. induction l as [| y l IH]; intros seen pre Hseen;
    [reflexivity |].
  cbn [map duplicated_from List.length seq combine filter fst snd].
  assert (Hpre : firstn (List.length pre) (pre ++ y :: l) = pre).
  { rewrite firstn_app, Nat.sub_diag, firstn_all. simpl.
    apply app_nil_r. }
  rewrite Hpre.
  assert (Hstep : forall seen',
    (forall k, In k seen' <-> In k (map key (pre ++ [y]))) ->
    boolean_mask (map negb (duplicated_from eq_dec seen' (map key l))) l
    = map snd
        (filter (fun ir => if in_dec eq_dec (key (snd ir))
                                (map key (firstn (fst ir) (pre ++ y :: l)))
                           then false else true)
                (combine (seq (S (List.length pre)) (List.length l)) l))).
  { intros seen' Hs. rewrite (IH seen' (pre ++ [y]) Hs).
    rewrite <- app_assoc, length_app. simpl.
    rewrite Nat.add_1_r. reflexivity. }
  destruct (in_dec eq_dec (key y) seen) as [Hin | Hnin];
    destruct (in_dec eq_dec (key y) (map key pre)) as [Hin' | Hnin'];
    try (exfalso; apply Hseen in Hin; contradiction);
    try (exfalso; apply Hseen in Hin'; contradiction).
  - simpl. apply Hstep. intros k. rewrite map_app, in_app_iff, Hseen.
    simpl. split; [tauto |]. intros [H | [H | []]]; [assumption |].
    subst k. assumption.
  - simpl. f_equal. apply Hstep. intros k. rewrite map_app, in_app_iff.
    simpl. rewrite Hseen. tauto.
Qed.

Lemma keep_first_from_covers (seen : list K) (l : list A) (x : A) :
  In x l ->
  In (key x) seen \/
  exists y,
    In y (boolean_mask (map negb (duplicated_from eq_dec seen (map key l))) l)
    /\ key y = key x.
Proof.
  revert seen. induction l as [| z l IH]; intros seen; simpl; [tauto |].
  intros [Hx | Hx].
  - subst z. destruct (in_dec eq_dec (key x) seen); simpl; [tauto |].
    right. exists x. tauto.
  - destruct (in_dec eq_dec (key z) seen) as [Hz | Hz]; simpl.
    + apply IH. assumption.
    + destruct (IH (key z :: seen) Hx) as [[Hk | Hk] | (y & Hy & Hk)].
      * right. exists z. split; [tauto | assumption].
      * tauto.
      * right. exists y. tauto.
Qed.

End Masks.

(** ** The REIT cleaner *)

Section ReitCleaner.

Import Reit.

Variable sc : Scalars.

(** The count guard of the duplicate step changes nothing: with no marked
    row, dropping the marked rows is the identity. *)
Lemma remove_duplicates_eq (df : DataFrame) :
  remove_duplicates df = drop_duplicates df.
Proof.
  unfold remove_duplicates, drop_duplicates, duplicated.
  destruct (0 <? _)%nat eqn:H; [reflexivity |].
  apply Nat.ltb_ge in H. symmetry. apply no_duplicate_marked. lia.
Qed.

Lemma clean_reit_data_first_occurrences (raw : DataFrame) :
  clean_reit_data sc raw
    = Spec.first_occurrences key_eq_dec key (prepare sc raw).
Proof.
  unfold clean_reit_data. rewrite remove_duplicates_eq.
  unfold drop_duplicates, duplicated, Spec.first_occurrences.
  apply (keep_first_from_positions key_eq_dec key [] [] (prepare sc raw)).
  intros k. simpl. tauto.
Qed.

Lemma clean_reit_data_keys_NoDup (raw : DataFrame) :
  NoDup (map key (clean_reit_data sc raw)).
Proof.
  unfold clean_reit_data. rewrite remove_duplicates_eq.
  apply keep_first_from_NoDup.
Qed.

(** The count guard of the date step changes nothing either. *)
Lemma drop_invalid_dates_eq (df : DataFrame) :
  drop_invalid_dates df = filter (fun r => notnull (date r)) df.
Proof.
  unfold drop_invalid_dates. destruct (0 <? _)%nat eqn:H; [reflexivity |].
  apply Nat.ltb_ge in H. symmetry.
  apply (filter_length_zero (fun r => isnull (date r))). lia.
Qed.

(** The outlier step: when it filters, every return it keeps is a number
    of the interval; when it finds no outlier, no return lies outside the
    interval, but a NaN return compares false on both sides and stays. *)
Lemma remove_outliers_range_or_nan (df : DataFrame) (r : row) :
  In r (remove_outliers df) ->
  in_range r = true \/ (is_outlier r = false /\ In r df).
Proof.
  unfold remove_outliers. rewrite !boolean_mask_map.
  destruct (0 <? _)%nat eqn:H.
  - intros Hr. apply filter_In in Hr. tauto.
  - intros Hr. right. split; [| assumption].
    apply Nat.ltb_ge in H.
    destruct (is_outlier r) eqn:Ho; [| reflexivity].
    assert (Hin : In r (filter is_outlier df)) by (apply filter_In; tauto).
    destruct (filter is_outlier df); [destruct Hin | simpl in H; lia].
Qed.

Lemma remove_outliers_subset (df : DataFrame) (r : row) :
  In r (remove_outliers df) -> In r df.
Proof.
  unfold remove_outliers. rewrite !boolean_mask_map.
  destruct (0 <? _)%nat; [| trivial].
  intros H. apply filter_In in H. tauto.
Qed.

(** What the cleaner does guarantee about the return: it is a float, and
    it lies in the interval unless it is a NaN. *)
Lemma clean_reit_data_usdret_range_or_nan (raw : DataFrame) (r : row) :
  In r (clean_reit_data sc raw) ->
  exists x, usdret r = Num x /\
            (is_nan x = true \/
             (fleb f_minus_one x = true /\ fleb x f_five = true)).
Proof.
  unfold clean_reit_data. rewrite remove_duplicates_eq.
  unfold drop_duplicates, duplicated. intros H.
  apply keep_first_from_In in H. destruct H as [H _].
  unfold prepare, upper_ticker in H. apply in_map_iff in H.
  destruct H as (r' & Hr & H). subst r. simpl.
  pose proof (remove_outliers_subset _ _ H) as Hin.
  unfold coerce_numeric in Hin. apply in_map_iff in Hin.
  destruct Hin as (r0 & Hr0 & _).
  exists (to_numeric_coerce sc (usdret r0)).
  split; [subst r'; reflexivity |].
  apply remove_outliers_range_or_nan in H.
  unfold in_range, is_outlier in H. subst r'. simpl in H.
  destruct (is_nan (to_numeric_coerce sc (usdret r0))) eqn:Hnan; [tauto |].
  right. destruct H as [H | [H _]].
  - apply andb_prop in H. tauto.
  - apply orb_false_elim in H. destruct H as [H5 H1].
    split; apply fltb_false_fleb; auto.
Qed.

End ReitCleaner.

(** ** Column operations *)

Section Columns.

Lemma ffill_from_length {A} (null : A -> bool) (limit : nat)
  (last : option A) (run : nat) (xs : list A) :
  List.length (ffill_from null limit last run xs) = List.length xs.
Proof.
  revert last run. induction xs as [| x xs IH]; intros last run; simpl;
    [reflexivity |].
  destruct (null x); [destruct last |]; simpl; rewrite IH; reflexivity.
Qed.

(** A column without a missing value is left as it is. *)
Lemma ffill_from_complete {A} (null : A -> bool) (limit : nat)
  (last : option A) (run : nat) (xs : list A) :
  Forall (fun x => null x = false) xs ->
  ffill_from null limit last run xs = xs.
Proof.
  intros H. revert last run. induction H as [| x xs Hx _ IH];
    intros last run; simpl; [reflexivity |].
  rewrite Hx, IH. reflexivity.
Qed.

Lemma shift_length (n : nat) (xs : list float) :
  List.length (shift n xs) = List.length xs.
Proof.
  unfold shift. rewrite length_firstn, length_app, repeat_length. lia.
Qed.

Lemma zip_with_length {A B C} (f : A -> B -> C) (l : list A) (l' : list B) :
  List.length (zip_with f l l') = Nat.min (List.length l) (List.length l').
Proof.
  revert l'. induction l as [| x l IH]; intros [| y l']; simpl; auto.
Qed.

Lemma pct_change_length (n : nat) (xs : list float) :
  List.length (pct_change n xs) = List.length xs.
Proof.
  unfold pct_change. rewrite zip_with_length, shift_length. lia.
Qed.

Lemma index_of_In (name : string) (cols : list string) :
  In name cols -> exists j, index_of name cols = Some j.
Proof.
  induction cols as [| c cols IH]; simpl; [tauto |].
  intros H. destruct (string_dec name c) as [| Hne]; [eauto |].
  destruct H as [H | H]; [congruence |].
  destruct (IH H) as [j Hj]. rewrite Hj. simpl. eauto.
Qed.

Lemma map_nth_seq {A} (d : A) (l : list A) :
  map (fun i => nth i l d) (seq 0 (List.length l)) = l.
Proof.
  induction l as [| x l IH]; simpl; [reflexivity |].
  f_equal. rewrite <- seq_shift, map_map. exact IH.
Qed.

(** Dropping rows keeps the keys of the remaining rows distinct. *)
Lemma NoDup_map_filter {A B} (g : A -> B) (keep : A -> bool) (rs : list A)
  (Hnd : NoDup (map g rs)) : NoDup (map g (filter keep rs)).
Proof.
  induction rs as [| x rs IH]; simpl; [constructor |].
  simpl in Hnd. apply NoDup_cons_iff in Hnd. destruct Hnd as [Hx Hrs].
  destruct (keep x); simpl; [| auto].
  constructor; [| auto]. intros Hin. apply Hx.
  apply in_map_iff in Hin. destruct Hin as (y & Hy & Hin).
  apply filter_In in Hin. rewrite <- Hy. apply in_map. tauto.
Qed.

End Columns.

(** ** The FRED cleaner *)

Section FredCleaner.

Import Fred.

Variable sc : Scalars.

Lemma to_datetime_coerce_Ok (c d : cell) :
  to_datetime sc c = Ok d -> d = to_datetime_coerce sc c.
Proof.
  unfold to_datetime, to_datetime_coerce.
  destruct c; simpl; try congruence;
    try (destruct (is_nan x)); try destruct (parse_datetime sc _);
    congruence.
Qed.

(** A present date that [pd.to_datetime] accepts becomes a timestamp. *)
Lemma to_datetime_notnull (c d : cell) :
  to_datetime sc c = Ok d -> isnull c = false -> exists t, d = TS t.
Proof.
  unfold to_datetime. intros H Hc.
  destruct c; try rewrite Hc in H; try discriminate;
    try (destruct (parse_datetime sc _); inversion H; eauto);
    inversion H; eauto.
Qed.

Lemma parse_dates_Ok (df df' : DataFrame) :
  parse_dates sc df = Ok df' ->
  columns df' = columns df /\
  map vals (rows df') = map vals (rows df) /\
  Forall2 (fun r r' => to_datetime sc (date r) = Ok (date r'))
          (rows df) (rows df').
Proof.
  unfold parse_dates. destruct df as [cols rs]. simpl.
  destruct (mapM _ rs) as [rs' |] eqn:Hm; simpl; [| discriminate].
  intros H. inversion H; subst; clear H. simpl. split; [reflexivity |].
  revert rs' Hm. induction rs as [| r rs IH]; intros rs' Hm; simpl in Hm.
  - inversion Hm. split; [reflexivity | constructor].
  - destruct (to_datetime sc (date r)) as [d |] eqn:Hd; simpl in Hm;
      [| discriminate].
    destruct (mapM _ rs) as [rs0 |] eqn:Hrs; simpl in Hm; [| discriminate].
    inversion Hm; subst; clear Hm. destruct (IH rs0 eq_refl) as [Hv Hf].
    simpl. split; [f_equal; assumption |]. constructor; assumption.
Qed.

Lemma rows_of_dates (ds : list cell) (cols : list (list float)) :
  dates (rows_of (List.length ds) ds cols) = ds.
Proof.
  unfold dates, rows_of. rewrite map_map. simpl. apply map_nth_seq.
Qed.

Lemma ffill_frame_dates (limit : nat) (df : DataFrame) :
  dates (rows (ffill_frame limit df)) = ffill isnull limit (dates (rows df)).
Proof.
  unfold ffill_frame. simpl.
  replace (List.length (rows df))
    with (List.length (ffill isnull limit (dates (rows df)))).
  - apply rows_of_dates.
  - unfold ffill, dates. rewrite ffill_from_length, length_map. reflexivity.
Qed.

Lemma zip_with_dates {B} (f : row -> B -> row) (rs : list row) (vs : list B) :
  (forall r v, date (f r v) = date r) ->
  List.length vs = List.length rs ->
  dates (zip_with f rs vs) = dates rs.
Proof.
  intros Hf. revert vs. induction rs as [| r rs IH]; intros [| v vs] Hlen;
    simpl in *; try discriminate; [reflexivity |].
  rewrite Hf, IH; [reflexivity | lia].
Qed.

Lemma assign_dates (name : string) (values : list float) (df : DataFrame) :
  List.length values = List.length (rows df) ->
  dates (rows (assign name values df)) = dates (rows df).
Proof.
  intros Hlen. unfold assign.
  destruct (index_of name (columns df)); simpl;
    apply zip_with_dates; auto.
Qed.

Lemma assign_length (name : string) (values : list float) (df : DataFrame) :
  List.length values = List.length (rows df) ->
  List.length (rows (assign name values df)) = List.length (rows df).
Proof.
  intros Hlen. unfold assign.
  destruct (index_of name (columns df)); simpl;
    rewrite zip_with_length; lia.
Qed.

Lemma column_length (name : string) (df : DataFrame) :
  has_column name df = true ->
  List.length (column name df) = List.length (rows df).
Proof.
  unfold has_column, column. destruct (in_dec string_dec name (columns df)) as [Hin |];
    [| discriminate].
  intros _. destruct (index_of_In _ _ Hin) as [j Hj]. rewrite Hj.
  unfold column_at. apply length_map.
Qed.

Lemma add_cpi_inflation_dates (df : DataFrame) :
  dates (rows (add_cpi_inflation df)) = dates (rows df).
Proof.
  unfold add_cpi_inflation. destruct (has_column "CPIAUCSL" df) eqn:H;
    [| reflexivity].
  apply assign_dates. rewrite length_map, pct_change_length.
  apply column_length. assumption.
Qed.

Lemma has_column_assign (name name' : string) (values : list float)
  (df : DataFrame) :
  has_column name df = true -> has_column name (assign name' values df) = true.
Proof.
  unfold has_column, assign.
  destruct (in_dec string_dec name (columns df)) as [Hin |]; [| discriminate].
  intros _. destruct (index_of name' (columns df)); simpl.
  - destruct (in_dec string_dec name (columns df)); tauto.
  - destruct (in_dec string_dec name (columns df ++ [name'])) as [| Hn];
      [reflexivity |]. exfalso. apply Hn. apply in_or_app. tauto.
Qed.

Lemma add_fedfunds_lags_dates (df : DataFrame) :
  dates (rows (add_fedfunds_lags df)) = dates (rows df).
Proof.
  unfold add_fedfunds_lags. destruct (has_column "FEDFUNDS" df) eqn:H;
    [| reflexivity].
  assert (H1 : List.length (shift 1 (column "FEDFUNDS" df))
               = List.length (rows df))
    by (rewrite shift_length; apply column_length; assumption).
  rewrite assign_dates.
  - apply assign_dates. assumption.
  - rewrite shift_length. apply column_length.
    apply has_column_assign. assumption.
Qed.

(** Every row of the cleaned table is complete: the last step is
    [dropna()]. *)
Lemma clean_fred_data_complete (raw out : DataFrame) :
  clean_fred_data sc raw = Ok out ->
  Forall (fun r => complete r = true) (rows out).
Proof.
  unfold clean_fred_data. destruct (parse_dates sc raw); simpl;
    [| discriminate].
  intros H. inversion H; subst; clear H. simpl.
  apply Forall_forall. intros r Hr. apply filter_In in Hr. tauto.
Qed.

Lemma month_of_cell_month_end (c : cell) :
  Spec.month_of_cell (dt_to_month_end c) = Spec.month_of_cell c.
Proof. destruct c; reflexivity. Qed.

Lemma parse_dates_dates (df df' : DataFrame) :
  parse_dates sc df = Ok df' ->
  dates (rows df') = map (fun r => to_datetime_coerce sc (date r)) (rows df).
Proof.
  intros H. apply parse_dates_Ok in H. destruct H as (_ & _ & H).
  unfold dates. induction H as [| r r' rs rs' Hr _ IH]; simpl;
    [reflexivity |].
  rewrite IH, (to_datetime_coerce_Ok _ Hr). reflexivity.
Qed.

Lemma parse_dates_notnull (df df' : DataFrame) :
  parse_dates sc df = Ok df' ->
  Forall (fun r => isnull (date r) = false) (rows df) ->
  Forall (fun d => isnull (dt_to_month_end d) = false) (dates (rows df')).
Proof.
  intros H Hnn. apply parse_dates_Ok in H. destruct H as (_ & _ & H).
  unfold dates. induction H as [| r r' rs rs' Hr _ IH]; simpl;
    [constructor |].
  inversion Hnn; subst. constructor; [| auto].
  destruct (to_datetime_notnull _ Hr) as [t Ht]; [assumption |].
  rewrite Ht. reflexivity.
Qed.

Lemma dropna_dates_NoDup {B} (g : cell -> B) (df : DataFrame) :
  NoDup (map g (dates (rows df))) ->
  NoDup (map g (dates (rows (dropna df)))).
Proof.
  unfold dates, dropna. simpl. rewrite !map_map.
  apply NoDup_map_filter.
Qed.

(** With every raw date present, the cleaner copies no date: the dates of
    its output are month ends of raw dates, each raw row giving one at
    most. *)
Lemma clean_fred_data_dates_NoDup {B} (g : cell -> B) (raw out : DataFrame) :
  clean_fred_data sc raw = Ok out ->
  Forall (fun r => isnull (date r) = false) (rows raw) ->
  NoDup (map (fun r => g (dt_to_month_end (to_datetime_coerce sc (date r))))
             (rows raw)) ->
  NoDup (map g (dates (rows out))).
Proof.
  unfold clean_fred_data. destruct (parse_dates sc raw) as [df1 |] eqn:Hp;
    simpl; [| discriminate].
  intros H Hnn Hnd. inversion H; subst; clear H.
  apply dropna_dates_NoDup.
  rewrite add_fedfunds_lags_dates, add_cpi_inflation_dates.
  apply dropna_dates_NoDup.
  rewrite ffill_frame_dates.
  assert (Hd : dates (rows (normalize_dates df1))
               = map dt_to_month_end (dates (rows df1))).
  { unfold normalize_dates, dates. simpl. rewrite !map_map. reflexivity. }
  rewrite Hd. unfold ffill. rewrite ffill_from_complete.
  - rewrite (parse_dates_dates _ Hp), !map_map. exact Hnd.
  - apply Forall_map. exact (parse_dates_notnull _ Hp Hnn).
Qed.

End FredCleaner.

(** ** Sorting *)

Section Sorting.

Import Merge.

Lemma insert_sorted_In (r x : panel_row) (l : panel) :
  In x (insert_sorted r l) <-> x = r \/ In x l.
Proof.
  induction l as [| y l IH]; simpl; [intuition congruence |].
  destruct (row_leb r y); simpl; [intuition congruence |].
  rewrite IH. intuition congruence.
Qed.

Lemma sort_values_In (x : panel_row) (p : panel) :
  In x (sort_values p) <-> In x p.
Proof.
  induction p as [| r p IH]; simpl; [tauto |].
  rewrite insert_sorted_In, IH. intuition congruence.
Qed.

Lemma insert_sorted_length (r : panel_row) (l : panel) :
  List.length (insert_sorted r l) = S (List.length l).
Proof.
  induction l as [| y l IH]; simpl; [reflexivity |].
  destruct (row_leb r y); simpl; [reflexivity | rewrite IH; reflexivity].
Qed.

Lemma sort_values_length (p : panel) :
  List.length (sort_values p) = List.length p.
Proof.
  induction p as [| r p IH]; simpl; [reflexivity |].
  rewrite insert_sorted_length, IH. reflexivity.
Qed.

End Sorting.

(** ** Worked runs *)

Section WorkedRuns.

Import Merge.

Example unix_epoch :
  days_from_civil 1970 1 1 = 0%Z /\ days_from_civil 2020 3 1 = 18322%Z.
Proof. split; reflexivity. Qed.

Example ffill_limit_two :
  ffill is_nan 2 [f_one; nan; nan; nan; f_five; nan]
    = [f_one; f_one; f_one; nan; f_five; f_five].
Proof. reflexivity. Qed.

Example shift_and_pct_change :
  shift 1 [f_one; f_five] = [nan; f_one] /\
  pct_change 1 [f_one; f_five] = [nan; float_of_Z 4].
Proof. split; vm_compute; reflexivity. Qed.

(** The literal scenario of the specification: three panel rows with the
    rates 1.5, 1.6 and 1.5, and a balanced-coverage gap of one row. *)
Example literal_scenario :
  let w := snd (main (initial_world (Some Examples.entity_table)
                                    (Some Examples.indicator_table))) in
  option_map (map (fun r => (ticker (entity r), date (entity r), indicators r)))
             (reit_fred_analysis_panel_csv w)
    = Some [ (Some "AAA"%string, Some (Examples.ymd 2020 1 31),
              [Num (Examples.dec "1.5")]);
             (Some "AAA"%string, Some (Examples.ymd 2020 2 29),
              [Num (Examples.dec "1.6")]);
             (Some "BBB"%string, Some (Examples.ymd 2020 1 31),
              [Num (Examples.dec "1.5")]) ] /\
  In (MergeSummary 3 2 3) (stdout w) /\
  In (EntityCoverage 2 2 4 3 1) (stdout w).
Proof. vm_compute. intuition. Qed.

(** Gap handling: March 2020 is absent from the indicator table. *)
Example gap_scenario :
  fst (merge_datasets (Some Examples.march_entity)
         (Some Examples.indicator_table) (initial_world None None))
    = Some [ mkPanelRow (mkReit (Some "AAA"%string)
                           (Some (Examples.ymd 2020 3 31))
                           [Num (Examples.dec "0.01")])
                        [NA] ].
Proof. vm_compute. reflexivity. Qed.

(** A duplicate (ticker, date) key: the first row is the one kept. *)
Example duplicate_scenario :
  map Reit.usdret (Reit.clean_reit_data csv_scalars Examples.raw_duplicate)
    = [Num (Examples.dec "0.07"); Num (Examples.dec "0.02")].
Proof. vm_compute. reflexivity. Qed.

End WorkedRuns.

(* ====================================================================== *)
(** * Part III: the statements of the specification                        *)
(* ====================================================================== *)

Section MergeClaims.

Import Merge.

(** C1 (as stated, refuted).  A weekly series cleaned by [clean_fred_data]
    keeps two rows for January 2020, both dated 2020-01-31; the cleaned
    one-row entity table merged against it gives a panel of two rows. *)
Lemma merge_datasets_row_count_counterexample :
  Fred.clean_fred_data csv_scalars Examples.raw_weekly
    = Ok Examples.cleaned_weekly /\
  map fdate (fred_rows (align_fred (of_fred_clean Examples.cleaned_weekly)))
    = [Some (Examples.ymd 2020 1 31); Some (Examples.ymd 2020 1 31)] /\
  Reit.clean_reit_data csv_scalars Examples.raw_one = Examples.cleaned_one /\
  List.length (align_reit (of_reit_clean Examples.cleaned_one)) = 1%nat /\
  exists p,
    fst (merge_datasets
           (Some (align_reit (of_reit_clean Examples.cleaned_one)))
           (Some (align_fred (of_fred_clean Examples.cleaned_weekly)))
           (initial_world None None)) = Some p /\
    List.length p = 2%nat.
Proof.
  split; [vm_compute; reflexivity |].
  split; [vm_compute; reflexivity |].
  split; [vm_compute; reflexivity |].
  split; [vm_compute; reflexivity |].
  eexists. split; vm_compute; reflexivity.
Qed.

(** C1 (amended).  [merge_datasets] returns a panel that has at least as
    many rows as the entity table: the left join removes no entity row.  It
    has exactly as many when the indicator table holds one row per month
    key at most. *)
Theorem merge_datasets_row_count
  (reit_df : reit_frame) (fred_df : fred_frame) (w : World) :
  exists p,
    fst (merge_datasets (Some reit_df) (Some fred_df) w) = Some p /\
    (List.length reit_df <= List.length p)%nat /\
    (NoDup (map fdate (fred_rows fred_df)) ->
     List.length p = List.length reit_df).
Proof.
  exists (pd_merge_left reit_df fred_df).
  rewrite merge_datasets_run. split; [reflexivity |].
  split; [apply pd_merge_left_no_loss |].
  intros Hnd. rewrite <- (pd_merge_left_entities fred_df reit_df Hnd) at 2.
  rewrite length_map. reflexivity.
Qed.

Lemma indicator_table_keys_NoDup :
  NoDup (map fdate (fred_rows Examples.indicator_table)).
Proof.
  repeat constructor; simpl; intuition discriminate.
Defined.

Lemma merge_datasets_row_count_witness :
  exists p,
    fst (merge_datasets (Some Examples.entity_table)
           (Some Examples.indicator_table) (initial_world None None)) = Some p /\
    List.length p = 3%nat.
Proof.
  destruct (merge_datasets_row_count Examples.entity_table
              Examples.indicator_table (initial_world None None))
    as (p & Hp & _ & Heq).
  exists p. split; [exact Hp |].
  exact (Heq indicator_table_keys_NoDup).
Defined.

(** C2 (as stated, refuted).  One entity row, two indicator rows for
    2020-01-31: the merge is not rejected, the panel has two rows for the
    one entity row, and the closing line of the merge stage is the
    "No data loss" line. *)
Lemma duplicate_months_counterexample :
  List.length Examples.single_entity = 1%nat /\
  merge_datasets (Some Examples.single_entity)
    (Some Examples.duplicated_indicator) (initial_world None None)
  = (Some [ mkPanelRow (mkReit (Some "AAA"%string)
                          (Some (Examples.ymd 2020 1 31))
                          [Num (Examples.dec "0.05")])
                       [Num (Examples.dec "1.5")];
            mkPanelRow (mkReit (Some "AAA"%string)
                          (Some (Examples.ymd 2020 1 31))
                          [Num (Examples.dec "0.05")])
                       [Num (Examples.dec "1.7")] ],
     emit [Banner "STEP 3: Merge Datasets"; MergeSummary 1 2 2; NoDataLoss]
          (initial_world None None)).
Proof. split; vm_compute; reflexivity. Qed.

(** C2 (amended).  [merge_datasets] rejects no merge: given both tables it
    returns the joined panel, in which an entity row appears once per
    indicator row of its month key, and once when there is none.  It prints
    the entity row count before and the panel row count after the join; the
    warning is tied to a loss of rows, which a left join never produces, so
    the stage always closes with the "No data loss" line, duplication
    included. *)
Theorem merge_datasets_flags_loss_only
  (reit_df : reit_frame) (fred_df : fred_frame) (w : World) :
  merge_datasets (Some reit_df) (Some fred_df) w
    = (Some (pd_merge_left reit_df fred_df),
       emit [Banner "STEP 3: Merge Datasets";
             MergeSummary (List.length reit_df)
                          (List.length (fred_rows fred_df))
                          (List.length (pd_merge_left reit_df fred_df));
             NoDataLoss] w) /\
  List.length (pd_merge_left reit_df fred_df)
    = list_sum (map (fun e => Nat.max 1 (List.length (matching (date e) fred_df)))
                    reit_df).
Proof.
  split; [apply merge_datasets_run | apply pd_merge_left_length].
Qed.

(** C3.  With one indicator row per month key at most, the merged panel
    holds the entity rows one for one and in order; a row whose month key
    an indicator row carries has that row's values as its indicator fields,
    and a row whose month key no indicator row carries is kept with every
    indicator field missing. *)
Theorem merge_datasets_join_correct
  (reit_df : reit_frame) (fred_df : fred_frame) (w : World) :
  NoDup (map fdate (fred_rows fred_df)) ->
  exists p,
    fst (merge_datasets (Some reit_df) (Some fred_df) w) = Some p /\
    map entity p = reit_df /\
    Forall (fun r =>
      (forall i, In i (fred_rows fred_df) -> fdate i = date (entity r) ->
                 indicators r = findicators i) /\
      ((forall i, In i (fred_rows fred_df) -> fdate i <> date (entity r)) ->
       indicators r = repeat NA (List.length (indicator_columns fred_df)) /\
       Forall (fun c => isnull c = true) (indicators r))) p.
Proof.
  intros Hnd. exists (pd_merge_left reit_df fred_df).
  rewrite merge_datasets_run. split; [reflexivity |].
  split; [apply pd_merge_left_entities; assumption |].
  apply Forall_forall. intros r Hr.
  apply pd_merge_left_In in Hr. destruct Hr as (e & _ & Hr).
  pose proof (matching_at_most_one fred_df (date e) Hnd) as Hone.
  apply join_row_spec in Hr. destruct Hr as [He Hr]. subst e.
  destruct Hr as [(i0 & Hi0 & Hd0 & Hv) | [Hnone Hv]].
  - split.
    + intros i Hi Hd. rewrite Hv.
      assert (H0 : In i0 (matching (date (entity r)) fred_df))
        by (apply matching_In; tauto).
      assert (H1 : In i (matching (date (entity r)) fred_df))
        by (apply matching_In; tauto).
      destruct (matching (date (entity r)) fred_df) as [| a [| b ms]];
        simpl in *; try lia; try tauto.
      destruct H0 as [H0 | []], H1 as [H1 | []]. congruence.
    + intros Hno. exfalso. exact (Hno i0 Hi0 Hd0).
  - split.
    + intros i Hi Hd. exfalso. exact (Hnone i Hi Hd).
    + intros _. split; [assumption |]. rewrite Hv.
      apply Forall_forall. intros c Hc. apply repeat_spec in Hc.
      subst c. reflexivity.
Qed.

Lemma merge_datasets_join_correct_witness :
  exists p,
    fst (merge_datasets (Some Examples.march_entity)
           (Some Examples.indicator_table) (initial_world None None)) = Some p /\
    map entity p = Examples.march_entity /\
    Forall (fun r =>
      (forall i, In i (fred_rows Examples.indicator_table) ->
                 fdate i = date (entity r) -> indicators r = findicators i) /\
      ((forall i, In i (fred_rows Examples.indicator_table) ->
                  fdate i <> date (entity r)) ->
       indicators r
         = repeat NA (List.length (indicator_columns Examples.indicator_table)) /\
       Forall (fun c => isnull c = true) (indicators r))) p.
Proof.
  exact (merge_datasets_join_correct Examples.march_entity
           Examples.indicator_table (initial_world None None)
           indicator_table_keys_NoDup).
Defined.

End MergeClaims.

Section AlignmentClaims.

(** C7. After [align_temporal_structure] every date of the entity table and
    of the indicator table is [to_month_end] of the date it had (a missing
    date stays missing); [clean_fred_data]'s normalisation step does the
    same.  [to_month_end t] is the last calendar day of the month of [t],
    and two dates of one calendar month get equal keys whatever their day
    and time. *)
Theorem temporal_alignment_month_end :
  (forall (E : Merge.reit_frame) (I : Merge.fred_frame) (w : Merge.World),
      exists E' I',
        fst (Merge.align_temporal_structure (Some E) (Some I) w)
          = (Some E', Some I') /\
        map Merge.date E' = map (option_map to_month_end) (map Merge.date E) /\
        map Merge.fdate (Merge.fred_rows I')
          = map (option_map to_month_end) (map Merge.fdate (Merge.fred_rows I)))
  /\ (forall (df : Fred.DataFrame),
         map Fred.date (Fred.rows (Fred.normalize_dates df))
           = map dt_to_month_end (map Fred.date (Fred.rows df)))
  /\ (forall t : Timestamp,
         valid_timestamp t = true ->
         Spec.last_day_of_month_of t (to_month_end t))
  /\ (forall a b : Timestamp,
         Spec.same_month a b -> to_month_end a = to_month_end b).
Proof.
  split; [| split; [| split]].
  - intros E I w. exists (Merge.align_reit E), (Merge.align_fred I).
    split; [reflexivity |].
    unfold Merge.align_reit, Merge.align_fred, Merge.align_date. simpl.
    rewrite !map_map. split; reflexivity.
  - intros df. unfold Fred.normalize_dates. simpl.
    rewrite !map_map. reflexivity.
  - intros t Hv. unfold Spec.last_day_of_month_of.
    split; [split; reflexivity |].
    split; [apply to_month_end_valid; assumption |].
    assert (Hb := Hv). unfold valid_timestamp in Hb.
    repeat (apply andb_prop in Hb; destruct Hb as [Hb ?]).
    split; [simpl; lia |].
    split; [reflexivity |].
    apply month_end_successor. lia.
  - intros a b [Hy Hm].
    unfold to_month_end, to_timestamp_M, to_period_M. simpl.
    rewrite Hy, Hm. reflexivity.
Qed.

Lemma temporal_alignment_month_end_witness :
  Spec.last_day_of_month_of (mkTimestamp 2020 2 14 43200000000000)
    (mkTimestamp 2020 2 29 0).
Proof.
  exact (proj1 (proj2 (proj2 temporal_alignment_month_end))
           (mkTimestamp 2020 2 14 43200000000000) eq_refl).
Defined.

End AlignmentClaims.

Section PipelineClaims.

Import Merge.

(** C5.  In the panel merged from the table [clean_fred_data] returned, as
    the merge stage loads and aligns it, every row has either its month key
    in the indicator table and every indicator field populated, or its
    month key absent from the indicator table and every indicator field
    missing. *)
Theorem indicator_fields_all_or_none (sc : Scalars)
  (raw cleaned : Fred.DataFrame) (reit_df : reit_frame) (w : World) :
  Fred.clean_fred_data sc raw = Ok cleaned ->
  exists p,
    fst (merge_datasets (Some reit_df)
           (Some (align_fred (of_fred_clean cleaned))) w) = Some p /\
    Forall (fun r =>
      (In (date (entity r))
          (map fdate (fred_rows (align_fred (of_fred_clean cleaned)))) /\
       Forall (fun c => isnull c = false) (indicators r))
      \/
      (~ In (date (entity r))
            (map fdate (fred_rows (align_fred (of_fred_clean cleaned)))) /\
       Forall (fun c => isnull c = true) (indicators r))) p.
Proof.
  intros Hclean.
  exists (pd_merge_left reit_df (align_fred (of_fred_clean cleaned))).
  rewrite merge_datasets_run. split; [reflexivity |].
  apply Forall_forall. intros r Hr.
  apply pd_merge_left_In in Hr. destruct Hr as (e & _ & Hr).
  apply join_row_spec in Hr. destruct Hr as [He Hr]. subst e.
  destruct Hr as [(i & Hi & Hd & Hv) | [Hnone Hv]].
  - left. split.
    + rewrite <- Hd. apply in_map. assumption.
    + rewrite Hv. unfold align_fred, of_fred_clean in Hi. simpl in Hi.
      rewrite map_map in Hi. apply in_map_iff in Hi.
      destruct Hi as (r0 & Hi & Hr0). subst i. simpl.
      pose proof (clean_fred_data_complete sc raw Hclean) as Hc.
      rewrite Forall_forall in Hc. specialize (Hc r0 Hr0).
      unfold Fred.complete in Hc. apply andb_prop in Hc.
      destruct Hc as [_ Hc]. rewrite forallb_forall in Hc.
      apply Forall_forall. intros c Hin. apply in_map_iff in Hin.
      destruct Hin as (x & Hx & Hin). subst c. simpl.
      specialize (Hc x Hin). destruct (is_nan x); [discriminate | reflexivity].
  - right. split.
    + intros Hin. apply in_map_iff in Hin. destruct Hin as (i & Hd & Hi).
      exact (Hnone i Hi Hd).
    + rewrite Hv. apply Forall_forall. intros c Hc.
      apply repeat_spec in Hc. subst c. reflexivity.
Qed.

Lemma cleaned_monthly_Ok :
  Fred.clean_fred_data csv_scalars Examples.raw_monthly
    = Ok Examples.cleaned_monthly.
Proof. vm_compute. reflexivity. Defined.

Lemma indicator_fields_all_or_none_witness :
  exists p,
    fst (merge_datasets (Some Examples.entity_table)
           (Some (align_fred (of_fred_clean Examples.cleaned_monthly)))
           (initial_world None None)) = Some p /\
    Forall (fun r =>
      (In (date (entity r))
          (map fdate (fred_rows (align_fred (of_fred_clean
                                               Examples.cleaned_monthly)))) /\
       Forall (fun c => isnull c = false) (indicators r))
      \/
      (~ In (date (entity r))
            (map fdate (fred_rows (align_fred (of_fred_clean
                                                 Examples.cleaned_monthly)))) /\
       Forall (fun c => isnull c = true) (indicators r))) p.
Proof.
  exact (indicator_fields_all_or_none csv_scalars Examples.raw_monthly
           Examples.entity_table (initial_world None None) cleaned_monthly_Ok).
Defined.

(** C8 (as stated, refuted).  The processed entity file is present and has
    no row: [main] runs to the end and writes an empty panel. *)
Lemma empty_table_counterexample :
  reit_fred_analysis_panel_csv
    (snd (main (initial_world (Some Examples.empty_entity)
                              (Some Examples.indicator_table)))) = Some [] /\
  In PipelineComplete
    (stdout (snd (main (initial_world (Some Examples.empty_entity)
                                      (Some Examples.indicator_table))))).
Proof. split; vm_compute; [reflexivity | tauto]. Qed.

(** C8 (amended).  The merge pipeline aborts only on a table that is absent:
    [merge_datasets] then returns no panel.  A table with zero rows is not
    detected: whatever the two loaded tables are, [main] merges them, writes
    the sorted panel and completes.  With an empty entity table the panel
    written is empty; with an empty indicator table it holds every entity
    row with all indicator fields missing. *)
Theorem main_persists_zero_row_tables :
  (forall (reit_df : option reit_frame) (fred_df : option fred_frame) w,
      fst (merge_datasets None fred_df w) = None /\
      fst (merge_datasets reit_df None w) = None)
  /\
  (forall (reit_df : reit_frame) (fred_df : fred_frame)
          (old_panel old_summary : option panel) (log : list event),
      let w' := snd (main (mkWorld (Some reit_df) (Some fred_df)
                             old_panel old_summary log)) in
      reit_fred_analysis_panel_csv w'
        = Some (sort_values
                  (pd_merge_left (align_reit reit_df) (align_fred fred_df))) /\
      summary_statistics_csv w' = reit_fred_analysis_panel_csv w' /\
      In PipelineComplete (stdout w'))
  /\
  (forall (fred_df : fred_frame)
          (old_panel old_summary : option panel) (log : list event),
      reit_fred_analysis_panel_csv
        (snd (main (mkWorld (Some []) (Some fred_df)
                      old_panel old_summary log))) = Some [])
  /\
  (forall (reit_df : reit_frame) (cols : list string)
          (old_panel old_summary : option panel) (log : list event),
      exists p,
        reit_fred_analysis_panel_csv
          (snd (main (mkWorld (Some reit_df) (Some (mkFredFrame cols []))
                        old_panel old_summary log))) = Some p /\
        List.length p = List.length reit_df /\
        Forall (fun r => indicators r = repeat NA (List.length cols)) p).
Proof.
  split; [| split; [| split]].
  - intros reit_df fred_df w. split.
    + rewrite merge_datasets_missing; [reflexivity | tauto].
    + rewrite merge_datasets_missing; [reflexivity | tauto].
  - intros reit_df fred_df op os log. rewrite main_run_present. simpl.
    split; [reflexivity |]. split; [reflexivity |].
    apply in_or_app. right. simpl. tauto.
  - intros fred_df op os log. rewrite main_run_present. reflexivity.
  - intros reit_df cols op os log. rewrite main_run_present. simpl.
    eexists. split; [reflexivity |]. split.
    + rewrite sort_values_length.
      assert (Hnd : NoDup (map fdate (fred_rows (align_fred (mkFredFrame cols [])))))
        by constructor.
      rewrite <- (length_map entity),
        (pd_merge_left_entities _ (align_reit reit_df) Hnd).
      unfold align_reit. apply length_map.
    + apply Forall_forall. intros r Hr. apply (proj1 (sort_values_In r _)) in Hr.
      apply pd_merge_left_In in Hr. destruct Hr as (e & _ & Hr).
      apply join_row_spec in Hr. simpl in Hr.
      destruct Hr as [_ [(i & [] & _) | [_ Hv]]]. exact Hv.
Qed.

(** C9.  When a processed input file is absent, [main] changes nothing but
    the standard output: no file is written.  The lines printed name every
    file that is absent and end the run as failed; none of them belongs to
    the merge, validation or saving steps. *)
Theorem main_missing_input (w : World) :
  reit_data_clean_csv w = None \/ fred_data_clean_csv w = None ->
  exists evs,
    snd (main w) = emit evs w /\
    (reit_data_clean_csv w = None -> In ReitNotFound evs) /\
    (fred_data_clean_csv w = None -> In FredNotFound evs) /\
    In PipelineFailed evs /\
    Forall (fun e =>
      match e with
      | Banner "STEP 1: Loading Processed Datasets"
      | Banner "MERGE INTO FINAL ANALYSIS PANEL"
      | ReitNotFound | FredNotFound | ReitLoaded _ | FredLoaded _
      | PipelineFailed => True
      | _ => False
      end) evs.
Proof.
  intros H. rewrite (main_run_missing w H). eexists.
  split; [reflexivity |].
  destruct (reit_data_clean_csv w), (fred_data_clean_csv w);
    destruct H; try discriminate; simpl;
    (split; [intros; try discriminate; tauto |]);
    (split; [intros; try discriminate; tauto |]);
    (split; [tauto |]); repeat constructor.
Qed.

Lemma main_missing_input_witness :
  exists evs,
    snd (main (initial_world None (Some Examples.indicator_table)))
      = emit evs (initial_world None (Some Examples.indicator_table)) /\
    (reit_data_clean_csv (initial_world None (Some Examples.indicator_table))
       = None -> In ReitNotFound evs) /\
    (fred_data_clean_csv (initial_world None (Some Examples.indicator_table))
       = None -> In FredNotFound evs) /\
    In PipelineFailed evs /\
    Forall (fun e =>
      match e with
      | Banner "STEP 1: Loading Processed Datasets"
      | Banner "MERGE INTO FINAL ANALYSIS PANEL"
      | ReitNotFound | FredNotFound | ReitLoaded _ | FredLoaded _
      | PipelineFailed => True
      | _ => False
      end) evs.
Proof.
  apply (main_missing_input (initial_world None (Some Examples.indicator_table))).
  left. reflexivity.
Defined.

End PipelineClaims.

Section CleanerClaims.

(** C4 (as stated, refuted).  Two observations of one ticker on different
    days of January 2020 both survive [clean_reit_data]; the two January
    rows of a weekly series both survive [clean_fred_data], with the same
    month-end date. *)
Lemma month_key_uniqueness_counterexample :
  Reit.clean_reit_data csv_scalars Examples.raw_two_days
    = [ Reit.mkRow (Str "AAA") (TS (Examples.ymd 2020 1 15))
                   (Num (Examples.dec "0.01")) [];
        Reit.mkRow (Str "AAA") (TS (Examples.ymd 2020 1 31))
                   (Num (Examples.dec "0.02")) [] ] /\
  Fred.clean_fred_data csv_scalars Examples.raw_weekly
    = Ok (Fred.mkFrame ["MORTGAGE30US"%string]
            [ Fred.mkRow (TS (Examples.ymd 2020 1 31)) [Examples.dec "3.72"];
              Fred.mkRow (TS (Examples.ymd 2020 1 31)) [Examples.dec "3.64"] ]).
Proof. split; vm_compute; reflexivity. Qed.

(** C4 (amended).  Any two distinct rows of [clean_reit_data]'s output
    differ in the pair of uppercased ticker and parsed date (not in the
    pair of ticker and calendar month).  [clean_fred_data] removes no
    duplicate: any two distinct rows of its output differ in calendar month
    provided every date of the raw table is present and the raw dates fall
    in pairwise distinct calendar months. *)
Theorem cleaned_keys_unique (sc : Scalars) :
  (forall raw : Reit.DataFrame,
      NoDup (map Reit.key (Reit.clean_reit_data sc raw)))
  /\
  (forall raw out : Fred.DataFrame,
      Fred.clean_fred_data sc raw = Ok out ->
      Forall (fun r => isnull (Fred.date r) = false) (Fred.rows raw) ->
      NoDup (map (fun r => Spec.month_of_cell
                             (to_datetime_coerce sc (Fred.date r)))
                 (Fred.rows raw)) ->
      NoDup (map (fun r => Spec.month_of_cell (Fred.date r)) (Fred.rows out))).
Proof.
  split.
  - apply clean_reit_data_keys_NoDup.
  - intros raw out Hclean Hnn Hnd.
    pose proof (clean_fred_data_dates_NoDup sc Spec.month_of_cell raw
                  Hclean Hnn) as H.
    unfold Fred.dates in H. rewrite map_map in H. apply H.
    erewrite map_ext; [exact Hnd |].
    intros r. apply month_of_cell_month_end.
Qed.

Lemma cleaned_keys_unique_witness :
  NoDup (map (fun r => Spec.month_of_cell (Fred.date r))
             (Fred.rows Examples.cleaned_monthly)).
Proof.
  apply (proj2 (cleaned_keys_unique csv_scalars) Examples.raw_monthly).
  - vm_compute. reflexivity.
  - repeat constructor.
  - vm_compute. repeat constructor; simpl; intuition discriminate.
Defined.

(** C6 (the code departs from the claim).  A return cell holding text that
    is not a number passes the missing-value filter, is coerced to NaN and,
    no row being an outlier, stays in the output; next to an outlier row the
    same row is removed. *)
Theorem clean_reit_data_keeps_nan_return :
  Reit.clean_reit_data csv_scalars Examples.raw_text_return
    = [ Reit.mkRow (Str "AAA") (TS (Examples.ymd 2020 1 31)) (Num nan) [] ] /\
  Reit.clean_reit_data csv_scalars Examples.raw_text_and_outlier = [].
Proof. split; vm_compute; reflexivity. Qed.

(** C10 (as stated, refuted).  Two raw rows share the key (AAA, 2020-01-31)
    once the ticker is uppercased; the first has a return of 950% and is
    removed as an outlier, so the row retained is the second one. *)
Lemma first_raw_row_counterexample :
  map (fun r => (string_upper (astype_str csv_scalars (Reit.ticker r)),
                 to_datetime_coerce csv_scalars (Reit.date r)))
      Examples.raw_outlier_first
    = [ ("AAA"%string, TS (Examples.ymd 2020 1 31));
        ("AAA"%string, TS (Examples.ymd 2020 1 31)) ] /\
  map Reit.usdret Examples.raw_outlier_first = [Str "9.5"; Str "0.05"] /\
  Reit.clean_reit_data csv_scalars Examples.raw_outlier_first
    = [ Reit.mkRow (Str "AAA") (TS (Examples.ymd 2020 1 31))
                   (Num (Examples.dec "0.05")) [] ].
Proof. repeat split; vm_compute; reflexivity. Qed.

(** C10 (amended).  Among the rows that remain once the earlier steps are
    done (rows with a missing ticker, date or return and rows with an
    invalid date dropped, out-of-range returns filtered, tickers
    uppercased), [clean_reit_data] retains for every (ticker, date) key
    exactly the first row in input order and drops every later one. *)
Theorem clean_reit_data_keeps_first_prepared
  (sc : Scalars) (raw : Reit.DataFrame) :
  Reit.clean_reit_data sc raw
    = Spec.first_occurrences Reit.key_eq_dec Reit.key (Reit.prepare sc raw) /\
  NoDup (map Reit.key (Reit.clean_reit_data sc raw)) /\
  (forall r, In r (Reit.prepare sc raw) ->
             exists r', In r' (Reit.clean_reit_data sc raw) /\
                        Reit.key r' = Reit.key r).
Proof.
  split; [apply clean_reit_data_first_occurrences |].
  split; [apply clean_reit_data_keys_NoDup |].
  intros r Hr. unfold Reit.clean_reit_data.
  rewrite remove_duplicates_eq.
  destruct (keep_first_from_covers Reit.key_eq_dec Reit.key [] _ _ Hr)
    as [[] | H].
  exact H.
Qed.

Lemma clean_reit_data_keeps_first_prepared_witness :
  exists r',
    In r' (Reit.clean_reit_data csv_scalars Examples.raw_duplicate) /\
    Reit.key r'
      = Reit.key (Reit.mkRow (Str "AAA") (TS (Examples.ymd 2020 1 31))
                             (Num (Examples.dec "0.05")) []).
Proof.
  apply (proj2 (proj2 (clean_reit_data_keeps_first_prepared
                         csv_scalars Examples.raw_duplicate))).
  vm_compute. tauto.
Defined.

End CleanerClaims.

(* ====================================================================== *)
(** * Part IV: further properties of the code                              *)
(* ====================================================================== *)

(** ** The merge script *)

Section MergeFurther.

Import Merge.

Lemma to_month_end_idempotent (t : Timestamp) :
  to_month_end (to_month_end t) = to_month_end t.
Proof. reflexivity. Qed.

Lemma align_reit_idempotent (df : reit_frame) :
  align_reit (align_reit df) = align_reit df.
Proof.
  unfold align_reit. rewrite map_map. apply map_ext. intros r. simpl.
  destruct (date r); reflexivity.
Qed.

Lemma align_fred_idempotent (df : fred_frame) :
  align_fred (align_fred df) = align_fred df.
Proof.
  unfold align_fred. simpl. rewrite map_map. f_equal.
  apply map_ext. intros r. simpl. destruct (fdate r); reflexivity.
Qed.

(** X1.  Aligning twice is aligning once: [align_temporal_structure] applied
    to the tables it returned gives back the same tables, a table that is
    absent staying absent. *)
Theorem align_temporal_structure_idempotent
  (reit_df : option reit_frame) (fred_df : option fred_frame) (w w' : World) :
  fst (align_temporal_structure
         (fst (fst (align_temporal_structure reit_df fred_df w)))
         (snd (fst (align_temporal_structure reit_df fred_df w))) w')
  = fst (align_temporal_structure reit_df fred_df w).
Proof.
  destruct reit_df as [r |], fred_df as [f |]; simpl;
    rewrite ?align_reit_idempotent, ?align_fred_idempotent; reflexivity.
Qed.

Lemma join_row_entities (fred_df : fred_frame) (e : reit_row) :
  map entity (join_row fred_df e)
    = repeat e (Nat.max 1 (List.length (matching (date e) fred_df))).
Proof.
  unfold join_row. destruct (matching (date e) fred_df) as [| i ms];
    [reflexivity |].
  change (Nat.max 1 (List.length (i :: ms))) with (S (List.length ms)).
  simpl. f_equal. induction ms as [| j ms IH]; simpl; [reflexivity |].
  rewrite IH. reflexivity.
Qed.

(** X2.  Whatever the indicator table holds, the entity rows of the panel
    are those of the entity table in their order, each repeated once per
    indicator row of its key and once when there is none: the join neither
    reorders, nor loses, nor invents an entity row. *)
Theorem merge_datasets_entities
  (reit_df : reit_frame) (fred_df : fred_frame) (w : World) :
  exists p,
    fst (merge_datasets (Some reit_df) (Some fred_df) w) = Some p /\
    map entity p
      = flat_map (fun e => repeat e (Nat.max 1 (List.length
                                                  (matching (date e) fred_df))))
                 reit_df /\
    (forall e, In e (map entity p) <-> In e reit_df).
Proof.
  exists (pd_merge_left reit_df fred_df). rewrite merge_datasets_run.
  split; [reflexivity |].
  assert (Hmap : map entity (pd_merge_left reit_df fred_df)
                 = flat_map (fun e => repeat e (Nat.max 1 (List.length
                                               (matching (date e) fred_df))))
                            reit_df).
  { unfold pd_merge_left. induction reit_df as [| e l IH]; simpl;
      [reflexivity |].
    rewrite map_app, join_row_entities, IH. reflexivity. }
  split; [exact Hmap |].
  intros e. rewrite Hmap, in_flat_map. split.
  - intros (x & Hx & He). apply repeat_spec in He. subst e. exact Hx.
  - intros He. exists e. split; [exact He |].
    destruct (Nat.max 1 (List.length (matching (date e) fred_df))) eqn:Hm;
      [lia | left; reflexivity].
Qed.

End MergeFurther.

Section SortFurther.

Import Merge.

Lemma timestamp_compare_antisym (a b : Timestamp) :
  timestamp_compare b a = CompOpp (timestamp_compare a b).
Proof.
  unfold timestamp_compare.
  rewrite (Z.compare_antisym (year a) (year b)),
    (Z.compare_antisym (month a) (month b)),
    (Z.compare_antisym (day a) (day b)),
    (Z.compare_antisym (time_ns a) (time_ns b)).
  destruct (year a ?= year b)%Z; simpl; try reflexivity.
  destruct (month a ?= month b)%Z; simpl; try reflexivity.
  destruct (day a ?= day b)%Z; simpl; reflexivity.
Qed.

Lemma compare_na_last_antisym {A} (cmp : A -> A -> comparison)
  (Hcmp : forall x y, cmp y x = CompOpp (cmp x y)) (a b : option A) :
  compare_na_last cmp b a = CompOpp (compare_na_last cmp a b).
Proof. destruct a, b; simpl; auto. Qed.

(** Of two rows, one sorts before the other. *)
Lemma row_leb_total (a b : panel_row) :
  row_leb a b = false -> row_leb b a = true.
Proof.
  unfold row_leb.
  rewrite (compare_na_last_antisym String.compare
             (fun x y => String.compare_antisym y x)
             (ticker (entity a)) (ticker (entity b))).
  rewrite (compare_na_last_antisym timestamp_compare
             timestamp_compare_antisym
             (date (entity a)) (date (entity b))).
  destruct (compare_na_last String.compare _ _); simpl; try discriminate;
    try reflexivity.
  destruct (compare_na_last timestamp_compare _ _); simpl;
    try discriminate; reflexivity.
Qed.

Lemma insert_sorted_HdRel (x r : panel_row) (l : panel) :
  row_leb x r = true -> HdRel (fun a b => row_leb a b = true) x l ->
  HdRel (fun a b => row_leb a b = true) x (insert_sorted r l).
Proof.
  intros Hxr Hl. destruct l as [| y l]; simpl; [constructor; exact Hxr |].
  destruct (row_leb r y); constructor; [exact Hxr |].
  inversion Hl; assumption.
Qed.

Lemma insert_sorted_Sorted (r : panel_row) (l : panel) :
  Sorted (fun a b => row_leb a b = true) l ->
  Sorted (fun a b => row_leb a b = true) (insert_sorted r l).
Proof.
  induction l as [| y l IH]; intros Hs; simpl.
  - repeat constructor.
  - destruct (row_leb r y) eqn:Hry.
    + constructor; [exact Hs | constructor; exact Hry].
    + inversion Hs as [| ? ? Hl Hy]; subst. constructor; [auto |].
      apply insert_sorted_HdRel; [apply row_leb_total; exact Hry | exact Hy].
Qed.

Lemma insert_sorted_Permutation (r : panel_row) (l : panel) :
  Permutation (r :: l) (insert_sorted r l).
Proof.
  induction l as [| y l IH]; simpl; [reflexivity |].
  destruct (row_leb r y); [reflexivity |].
  rewrite perm_swap. constructor. exact IH.
Qed.

(** X3.  [save_final_panel] writes, and returns, the rows of the panel it
    was given, none lost and none added, in ascending order of ticker and,
    for one ticker, of date, missing values last; the processed input files
    are left as they were. *)
Theorem save_final_panel_sorted (p : panel) (w : World) :
  exists p',
    fst (save_final_panel p w) = p' /\
    reit_fred_analysis_panel_csv (snd (save_final_panel p w)) = Some p' /\
    Permutation p p' /\
    Sorted (fun a b => row_leb a b = true) p' /\
    reit_data_clean_csv (snd (save_final_panel p w)) = reit_data_clean_csv w /\
    fred_data_clean_csv (snd (save_final_panel p w)) = fred_data_clean_csv w.
Proof.
  exists (sort_values p). repeat split.
  - induction p as [| r p IH]; simpl; [constructor |].
    rewrite <- insert_sorted_Permutation. constructor. exact IH.
  - induction p as [| r p IH]; simpl; [constructor |].
    apply insert_sorted_Sorted. exact IH.
Qed.

End SortFurther.

Section CoverageFurther.

Import Merge.

Lemma nunique_nodup {A} (eq_dec : forall a b : option A, {a = b} + {a <> b})
  (l : list (option A)) (x : A) :
  In (Some x) l ->
  In (Some x)
     (nodup eq_dec (filter (fun o => match o with
                                     | Some _ => true
                                     | None => false
                                     end) l)).
Proof.
  intros H. apply nodup_In. apply filter_In. split; [exact H | reflexivity].
Qed.

(** X4.  For a panel whose (ticker, month) keys are pairwise distinct and
    never missing, the coverage line of [validate_merge_integrity] reports
    an imbalance that is not negative: the panel has at most one row per
    ticker and month.  The function changes nothing but the output. *)
Theorem validate_merge_integrity_imbalance (p : panel) (w : World) :
  NoDup (map Shape.panel_key p) ->
  Forall (fun r => ticker (entity r) <> None /\ date (entity r) <> None) p ->
  exists n_tickers n_months : nat,
    snd (validate_merge_integrity p w)
      = emit [Banner "STEP 4: Merge Integrity Validation";
              PanelDimensions (List.length p);
              EntityCoverage n_tickers n_months (n_tickers * n_months)
                (List.length p)
                (Z.of_nat (n_tickers * n_months) - Z.of_nat (List.length p))]
             w /\
    (0 <= Z.of_nat (n_tickers * n_months) - Z.of_nat (List.length p))%Z.
Proof.
  intros Hnd Hnn.
  set (ts := nodup string_option_eq_dec
               (filter (fun o => match o with Some _ => true | None => false end)
                       (map (fun r => ticker (entity r)) p))).
  set (ms := nodup date_eq_dec
               (filter (fun o => match o with Some _ => true | None => false end)
                       (map (fun r => date (entity r)) p))).
  exists (List.length ts), (List.length ms). split.
  - unfold validate_merge_integrity, bind, print, nunique.
    rewrite !emit_emit. reflexivity.
  - assert (Hincl : incl (map Shape.panel_key p) (list_prod ts ms)).
    { intros k Hk. apply in_map_iff in Hk. destruct Hk as (r & Hk & Hr).
      subst k. rewrite Forall_forall in Hnn. destruct (Hnn r Hr) as [Ht Hd].
      unfold Shape.panel_key.
      destruct (ticker (entity r)) as [t |] eqn:Et; [| congruence].
      destruct (date (entity r)) as [d |] eqn:Ed; [| congruence].
      apply in_prod.
      - apply nunique_nodup. rewrite <- Et.
        apply (in_map (fun r => ticker (entity r))). exact Hr.
      - apply nunique_nodup. rewrite <- Ed.
        apply (in_map (fun r => date (entity r))). exact Hr. }
    pose proof (NoDup_incl_length Hnd Hincl) as Hlen.
    rewrite length_map, length_prod in Hlen. lia.
Qed.

Lemma literal_panel_keys_NoDup :
  NoDup (map Shape.panel_key
           (pd_merge_left Examples.entity_table Examples.indicator_table)).
Proof.
  vm_compute. repeat constructor; simpl; intuition discriminate.
Defined.

Lemma literal_panel_keys_present :
  Forall (fun r => ticker (entity r) <> None /\ date (entity r) <> None)
         (pd_merge_left Examples.entity_table Examples.indicator_table).
Proof.
  vm_compute. repeat constructor; discriminate.
Defined.

Lemma validate_merge_integrity_imbalance_witness :
  exists n_tickers n_months : nat,
    snd (validate_merge_integrity
           (pd_merge_left Examples.entity_table Examples.indicator_table)
           (initial_world None None))
      = emit [Banner "STEP 4: Merge Integrity Validation";
              PanelDimensions
                (List.length (pd_merge_left Examples.entity_table
                                            Examples.indicator_table));
              EntityCoverage n_tickers n_months (n_tickers * n_months)
                (List.length (pd_merge_left Examples.entity_table
                                            Examples.indicator_table))
                (Z.of_nat (n_tickers * n_months)
                 - Z.of_nat (List.length
                               (pd_merge_left Examples.entity_table
                                              Examples.indicator_table)))]
             (initial_world None None) /\
    (0 <= Z.of_nat (n_tickers * n_months)
          - Z.of_nat (List.length (pd_merge_left Examples.entity_table
                                                 Examples.indicator_table)))%Z.
Proof.
  exact (validate_merge_integrity_imbalance
           (initial_world None None)
           literal_panel_keys_NoDup literal_panel_keys_present).
Defined.

(** X5.  [main] never touches the processed input files, and a second run
    on the world the first run left writes the same panel and the same
    summary again: the output is a function of the two input files. *)
Theorem main_rerun (w : World) :
  reit_data_clean_csv (snd (main w)) = reit_data_clean_csv w /\
  fred_data_clean_csv (snd (main w)) = fred_data_clean_csv w /\
  reit_fred_analysis_panel_csv (snd (main (snd (main w))))
    = reit_fred_analysis_panel_csv (snd (main w)) /\
  summary_statistics_csv (snd (main (snd (main w))))
    = summary_statistics_csv (snd (main w)).
Proof.
  destruct w as [[reit |] [fred |] op os log].
  - rewrite main_run_present. cbn [snd]. rewrite main_run_present.
    repeat split; reflexivity.
  - rewrite (main_run_missing (mkWorld (Some reit) None op os log));
      [| right; reflexivity].
    cbn [snd]. rewrite main_run_missing; [| right; reflexivity].
    repeat split; reflexivity.
  - rewrite (main_run_missing (mkWorld None (Some fred) op os log));
      [| left; reflexivity].
    cbn [snd]. rewrite main_run_missing; [| left; reflexivity].
    repeat split; reflexivity.
  - rewrite (main_run_missing (mkWorld None None op os log));
      [| left; reflexivity].
    cbn [snd]. rewrite main_run_missing; [| left; reflexivity].
    repeat split; reflexivity.
Qed.

End CoverageFurther.

(** ** The REIT cleaner *)

Section MaskFurther.

Lemma filter_map_comm {A B} (f : A -> B) (p : B -> bool) (l : list A) :
  filter p (map f l) = map f (filter (fun x => p (f x)) l).
Proof.
  induction l as [| x l IH]; simpl; [reflexivity |].
  destruct (p (f x)); simpl; rewrite IH; reflexivity.
Qed.

Lemma filter_twice {A} (p q : A -> bool) (l : list A) :
  filter p (filter q l) = filter (fun x => q x && p x) l.
Proof.
  induction l as [| x l IH]; simpl; [reflexivity |].
  destruct (q x); simpl; [destruct (p x) |]; rewrite IH; reflexivity.
Qed.

Lemma filter_all {A} (p : A -> bool) (l : list A) :
  Forall (fun x => p x = true) l -> filter p l = l.
Proof.
  induction 1 as [| x l Hx _ IH]; simpl; [reflexivity |].
  rewrite Hx, IH. reflexivity.
Qed.

Lemma map_fixed {A} (f : A -> A) (l : list A) :
  Forall (fun x => f x = x) l -> map f l = l.
Proof.
  induction 1 as [| x l Hx _ IH]; simpl; [reflexivity |].
  rewrite Hx, IH. reflexivity.
Qed.

Lemma boolean_mask_of_map {A B} (f : A -> B) (mask : list bool) (l : list A) :
  boolean_mask mask (map f l) = map f (boolean_mask mask l).
Proof.
  revert l. induction mask as [| b mask IH]; intros [| x l]; simpl;
    try reflexivity.
  destruct b; simpl; rewrite IH; reflexivity.
Qed.

Lemma masked_refl {A} (l : list A) : Shape.masked l l.
Proof.
  exists (map (fun _ => true) l). split; [apply length_map |].
  rewrite boolean_mask_map. symmetry. apply filter_all.
  apply Forall_forall. reflexivity.
Qed.

Lemma masked_filter {A} (p : A -> bool) (l : list A) :
  Shape.masked (filter p l) l.
Proof.
  exists (map p l). split; [apply length_map |].
  symmetry. apply boolean_mask_map.
Qed.

Lemma masked_map {A B} (f : A -> B) (out l : list A) :
  Shape.masked out l -> Shape.masked (map f out) (map f l).
Proof.
  intros (m & Hm & Ho). exists m. split; [rewrite length_map; exact Hm |].
  rewrite Ho. symmetry. apply boolean_mask_of_map.
Qed.

Lemma boolean_mask_twice {A} (m2 : list bool) (l : list A) :
  List.length m2 = List.length l ->
  forall m1, exists m3,
      List.length m3 = List.length l /\
      boolean_mask m1 (boolean_mask m2 l) = boolean_mask m3 l.
Proof.
  revert l. induction m2 as [| b m2 IH]; intros [| x l] Hlen m1;
    simpl in Hlen; try discriminate.
  - exists []. split; [reflexivity |]. destruct m1; reflexivity.
  - injection Hlen as Hlen. destruct b; simpl.
    + destruct m1 as [| b1 m1].
      * exists (false :: map (fun _ => false) l). simpl.
        split; [rewrite length_map; reflexivity |].
        rewrite boolean_mask_map. clear. induction l; simpl; auto.
      * destruct (IH l Hlen m1) as (m3 & Hm3 & Heq).
        exists (b1 :: m3). simpl. split; [congruence |].
        destruct b1; rewrite Heq; reflexivity.
    + destruct (IH l Hlen m1) as (m3 & Hm3 & Heq).
      exists (false :: m3). simpl. split; [congruence | exact Heq].
Qed.

Lemma masked_trans {A} (a b c : list A) :
  Shape.masked a b -> Shape.masked b c -> Shape.masked a c.
Proof.
  intros (m1 & _ & Ha) (m2 & Hm2 & Hb). subst a b.
  destruct (boolean_mask_twice m2 c Hm2 m1) as (m3 & Hm3 & Heq).
  exists m3. split; assumption.
Qed.

Lemma boolean_mask_length {A} (mask : list bool) (l : list A) :
  (List.length (boolean_mask mask l) <= List.length l)%nat.
Proof.
  revert l. induction mask as [| b mask IH]; intros [| x l]; simpl; try lia.
  specialize (IH l). destruct b; simpl; lia.
Qed.

Lemma masked_length {A} (out l : list A) :
  Shape.masked out l -> (List.length out <= List.length l)%nat.
Proof. intros (m & _ & Ho). subst out. apply boolean_mask_length. Qed.

Lemma boolean_mask_In {A} (mask : list bool) (l : list A) (x : A) :
  In x (boolean_mask mask l) -> In x l.
Proof.
  revert l. induction mask as [| b mask IH]; intros [| y l]; simpl;
    try tauto.
  destruct b; simpl; intros H; [destruct H as [H | H] |]; auto.
Qed.

(** Rows with pairwise distinct keys, none of them met before, carry no
    duplicate mark. *)
Lemma keep_first_from_distinct {A K}
  (eq_dec : forall a b : K, {a = b} + {a <> b}) (key : A -> K)
  (seen : list K) (l : list A) :
  NoDup (map key l) -> (forall x, In x l -> ~ In (key x) seen) ->
  boolean_mask (map negb (duplicated_from eq_dec seen (map key l))) l = l.
Proof.
  revert seen. induction l as [| y l IH]; intros seen Hnd Hseen; simpl;
    [reflexivity |].
  inversion Hnd as [| ? ? Hy Hl]; subst.
  destruct (in_dec eq_dec (key y) seen) as [Hin | _].
  - exfalso. apply (Hseen y); [left; reflexivity | exact Hin].
  - simpl. f_equal. apply IH; [exact Hl |].
    intros x Hx [Hk | Hk].
    + apply Hy. rewrite Hk. apply in_map. exact Hx.
    + apply (Hseen x); [right; exact Hx | exact Hk].
Qed.

End MaskFurther.

Section ReitFurther.

Import Reit.

Variable sc : Scalars.

(** The steps before the duplicate check, as one filter on the raw rows
    followed by the row-wise normalisation. *)
Lemma prepare_structure (raw : DataFrame) :
  exists keep : row -> bool,
    prepare sc raw = map (Shape.normalise sc) (filter keep raw) /\
    forall r, keep r = true ->
      notnull (ticker r) = true /\ notnull (date r) = true /\
      notnull (usdret r) = true /\
      notnull (to_datetime_coerce sc (date r)) = true.
Proof.
  unfold prepare, upper_ticker, remove_outliers, coerce_numeric.
  rewrite drop_invalid_dates_eq. unfold parse_dates, dropna_critical.
  rewrite !boolean_mask_map.
  set (c := fun r => notnull (ticker r) && notnull (date r)
                     && notnull (usdret r)).
  set (pd := fun r => set_date r (to_datetime_coerce sc (date r))).
  set (cn := fun r => {| ticker := ticker r; date := date r;
                         usdret := Num (to_numeric_coerce sc (usdret r));
                         extra := map (coerce_extra sc) (extra r) |}).
  rewrite (filter_map_comm pd), filter_twice, map_map.
  match goal with
  | |- context [if ?b then _ else _] => destruct b
  end.
  - rewrite filter_map_comm, filter_twice, map_map.
    eexists. split; [reflexivity |].
    intros r Hr. simpl in Hr.
    apply andb_prop in Hr. destruct Hr as [Hr _].
    apply andb_prop in Hr. destruct Hr as [Hc Hd].
    unfold c in Hc. apply andb_prop in Hc. destruct Hc as [Hc Hu].
    apply andb_prop in Hc. tauto.
  - rewrite map_map. eexists. split; [reflexivity |].
    intros r Hr. simpl in Hr.
    apply andb_prop in Hr. destruct Hr as [Hc Hd].
    unfold c in Hc. apply andb_prop in Hc. destruct Hc as [Hc Hu].
    apply andb_prop in Hc. tauto.
Qed.

Lemma to_datetime_coerce_notnull (c : cell) :
  notnull (to_datetime_coerce sc c) = true ->
  exists t, to_datetime_coerce sc c = TS t.
Proof.
  unfold to_datetime_coerce, notnull.
  destruct c; simpl; try discriminate; eauto;
    try (destruct (is_nan x); simpl; try discriminate);
    destruct (parse_datetime sc _); simpl; try discriminate; eauto.
Qed.

(** Where a cleaned row comes from. *)
Lemma clean_reit_data_origin (raw : DataFrame) (r : row) :
  In r (clean_reit_data sc raw) ->
  exists r0 t,
    In r0 raw /\ r = Shape.normalise sc r0 /\
    notnull (ticker r0) = true /\ notnull (date r0) = true /\
    notnull (usdret r0) = true /\
    to_datetime_coerce sc (date r0) = TS t.
Proof.
  unfold clean_reit_data. rewrite remove_duplicates_eq.
  unfold drop_duplicates. intros H. apply boolean_mask_In in H.
  destruct (prepare_structure raw) as (keep & Hp & Hkeep).
  rewrite Hp in H. apply in_map_iff in H. destruct H as (r0 & Hr & H0).
  apply filter_In in H0. destruct H0 as [Hin Hk].
  destruct (Hkeep r0 Hk) as (Ht & Hd & Hu & Hp').
  destruct (to_datetime_coerce_notnull _ Hp') as [t Ht'].
  exists r0, t. repeat split; auto.
Qed.

(** X6.  Every row [clean_reit_data] returns is the normalisation of a raw
    row whose ticker, date and return were all present: the ticker is the
    uppercased text of the raw ticker, the date is the timestamp the raw
    date parses to, the return is the float the raw return coerces to.  No
    value is repaired by substitution and no row is invented. *)
Theorem clean_reit_data_provenance (raw : DataFrame) (r : row) :
  In r (clean_reit_data sc raw) ->
  exists r0,
    In r0 raw /\ r = Shape.normalise sc r0 /\
    isnull (ticker r0) = false /\ isnull (date r0) = false /\
    isnull (usdret r0) = false /\
    ticker r = Str (upper sc (astype_str sc (ticker r0))) /\
    usdret r = Num (to_numeric_coerce sc (usdret r0)) /\
    exists t, date r = TS t /\ to_datetime_coerce sc (date r0) = TS t.
Proof.
  intros H. destruct (clean_reit_data_origin raw r H)
    as (r0 & t & Hin & Hr & Ht & Hd & Hu & Hp).
  exists r0. unfold notnull in Ht, Hd, Hu.
  apply negb_true_iff in Ht, Hd, Hu. subst r.
  repeat split; auto. exists t. simpl. auto.
Qed.

Lemma raw_duplicate_first_kept :
  In (Reit.mkRow (Str "AAA") (TS (Examples.ymd 2020 1 31))
                 (Num (Examples.dec "0.07")) [])
     (clean_reit_data csv_scalars Examples.raw_duplicate).
Proof. vm_compute. left. reflexivity. Defined.

End ReitFurther.

Lemma clean_reit_data_provenance_witness :
  exists r0,
    In r0 Examples.raw_duplicate /\
    Reit.mkRow (Str "AAA") (TS (Examples.ymd 2020 1 31))
               (Num (Examples.dec "0.07")) []
      = Shape.normalise csv_scalars r0 /\
    isnull (Reit.ticker r0) = false /\ isnull (Reit.date r0) = false /\
    isnull (Reit.usdret r0) = false /\
    Str "AAA"
      = Str (upper csv_scalars (astype_str csv_scalars (Reit.ticker r0))) /\
    Num (Examples.dec "0.07")
      = Num (to_numeric_coerce csv_scalars (Reit.usdret r0)) /\
    exists t,
      TS (Examples.ymd 2020 1 31) = TS t /\
      to_datetime_coerce csv_scalars (Reit.date r0) = TS t.
Proof.
  exact (clean_reit_data_provenance csv_scalars Examples.raw_duplicate
           _ raw_duplicate_first_kept).
Defined.

Section ReitFurther2.

Import Reit.

Variable sc : Scalars.

Lemma clean_reit_data_masked (raw : DataFrame) :
  Shape.masked (clean_reit_data sc raw) (map (Shape.normalise sc) raw).
Proof.
  unfold clean_reit_data. rewrite remove_duplicates_eq.
  destruct (prepare_structure sc raw) as (keep & Hp & _).
  apply masked_trans with (b := prepare sc raw).
  - unfold drop_duplicates. eexists. split; [| reflexivity].
    unfold duplicated. rewrite length_map.
    clear. generalize (@nil (cell * cell)).
    induction (prepare sc raw) as [| x l IH]; intros seen; simpl;
      [reflexivity |].
    destruct (in_dec key_eq_dec (key x) seen); simpl; rewrite IH;
      reflexivity.
  - rewrite Hp. apply masked_map. apply masked_filter.
Qed.

Lemma clean_reit_data_length (raw : DataFrame) :
  (List.length (clean_reit_data sc raw) <= List.length raw)%nat.
Proof.
  pose proof (masked_length (clean_reit_data_masked raw)) as H.
  rewrite length_map in H. exact H.
Qed.

(** X7.  [clean_reit_data] only drops rows: its output is the row-wise
    normalisation of the raw table with some rows left out, the remaining
    ones in their input order; in particular it never has more rows than
    the raw table, and an empty table stays empty. *)
Theorem clean_reit_data_only_drops (raw : DataFrame) :
  Shape.masked (clean_reit_data sc raw) (map (Shape.normalise sc) raw) /\
  (List.length (clean_reit_data sc raw) <= List.length raw)%nat /\
  clean_reit_data sc [] = [].
Proof.
  split; [apply clean_reit_data_masked |].
  split; [apply clean_reit_data_length | reflexivity].
Qed.

Lemma fleb_true_fltb (a b : float) : fleb a b = true -> fltb b a = false.
Proof.
  unfold fleb, fltb, SFleb, SFltb. rewrite (SFcompare_swap a b).
  destruct (SFcompare a b) as [[] |]; simpl; congruence.
Qed.

(** X8.  Every return in the output of [clean_reit_data] is a float that
    lies in [-1.0, 5.0] or is a NaN; when every return of the raw table
    coerces to a number, every return of the output lies in [-1.0, 5.0]. *)
Theorem clean_reit_data_return_bounds (raw : DataFrame) :
  (forall r, In r (clean_reit_data sc raw) ->
     exists x, usdret r = Num x /\
       (is_nan x = true \/
        (fleb f_minus_one x = true /\ fleb x f_five = true)))
  /\
  (Forall (fun r0 => is_nan (to_numeric_coerce sc (usdret r0)) = false) raw ->
   forall r, In r (clean_reit_data sc raw) ->
     exists x, usdret r = Num x /\
       fleb f_minus_one x = true /\ fleb x f_five = true).
Proof.
  split; [intros r; apply clean_reit_data_usdret_range_or_nan |].
  intros Hnum r Hr.
  destruct (clean_reit_data_usdret_range_or_nan sc raw r Hr)
    as (x & Hx & Hb).
  exists x. split; [exact Hx |].
  destruct Hb as [Hnan | Hb]; [| exact Hb].
  exfalso. unfold clean_reit_data in Hr. rewrite remove_duplicates_eq in Hr.
  unfold drop_duplicates in Hr. apply boolean_mask_In in Hr.
  destruct (prepare_structure sc raw) as (keep & Hp & _).
  rewrite Hp in Hr. apply in_map_iff in Hr. destruct Hr as (r0 & Hr & H0).
  apply filter_In in H0. destruct H0 as [Hin _].
  rewrite Forall_forall in Hnum. specialize (Hnum r0 Hin).
  subst r. simpl in Hx. injection Hx as Hx. congruence.
Qed.

End ReitFurther2.

Lemma raw_duplicate_numeric :
  Forall (fun r0 => is_nan (to_numeric_coerce csv_scalars (Reit.usdret r0))
                    = false) Examples.raw_duplicate.
Proof. repeat constructor. Defined.

Lemma clean_reit_data_return_bounds_witness :
  exists x,
    Reit.usdret (Reit.mkRow (Str "AAA") (TS (Examples.ymd 2020 1 31))
                            (Num (Examples.dec "0.07")) []) = Num x /\
    fleb f_minus_one x = true /\ fleb x f_five = true.
Proof.
  exact (proj2 (clean_reit_data_return_bounds csv_scalars
                  Examples.raw_duplicate)
           raw_duplicate_numeric _ raw_duplicate_first_kept).
Defined.

Section ReitFurther3.

Import Reit.

Variable sc : Scalars.

Lemma coerce_extra_idempotent (nc : string * cell) :
  coerce_extra sc (coerce_extra sc nc) = coerce_extra sc nc.
Proof.
  unfold coerce_extra at 2.
  destruct (in_dec string_dec (fst nc) numeric_cols) as [Hin | Hnin].
  - unfold coerce_extra. cbn [fst snd].
    destruct (in_dec string_dec (fst nc) numeric_cols); [reflexivity | tauto].
  - unfold coerce_extra.
    destruct (in_dec string_dec (fst nc) numeric_cols); [tauto | reflexivity].
Qed.

(** On a table of cleaned rows with distinct keys every step of the cleaner
    is the identity. *)
Lemma clean_reit_data_fixed (l : DataFrame) :
  (forall s, upper sc (upper sc s) = upper sc s) ->
  Forall (Shape.cleaned_row sc) l -> NoDup (map key l) ->
  clean_reit_data sc l = l.
Proof.
  intros Hup Hl Hnd.
  assert (H1 : dropna_critical l = l).
  { apply filter_all. eapply Forall_impl; [| exact Hl].
    intros r (s & t & x & e & Hr & Hn & _). subst r. simpl.
    unfold notnull. simpl. rewrite Hn. reflexivity. }
  assert (H2 : parse_dates sc l = l).
  { apply map_fixed. eapply Forall_impl; [| exact Hl].
    intros r (s & t & x & e & Hr & _). subst r. reflexivity. }
  assert (H3 : drop_invalid_dates l = l).
  { rewrite drop_invalid_dates_eq. apply filter_all.
    eapply Forall_impl; [| exact Hl].
    intros r (s & t & x & e & Hr & _). subst r. reflexivity. }
  assert (H4 : coerce_numeric sc l = l).
  { apply map_fixed. eapply Forall_impl; [| exact Hl].
    intros r (s & t & x & e & Hr & _). subst r. simpl. f_equal.
    rewrite map_map. apply map_ext. apply coerce_extra_idempotent. }
  assert (H5 : remove_outliers l = l).
  { unfold remove_outliers. rewrite !boolean_mask_map.
    destruct (0 <? _)%nat; [| reflexivity].
    apply filter_all. eapply Forall_impl; [| exact Hl].
    intros r (s & t & x & e & Hr & _ & H5 & Hm). subst r.
    unfold in_range. simpl. rewrite H5, Hm. reflexivity. }
  assert (H6 : upper_ticker sc l = l).
  { apply map_fixed. eapply Forall_impl; [| exact Hl].
    intros r (s & t & x & e & Hr & _). subst r.
    unfold set_ticker. simpl. rewrite Hup. reflexivity. }
  unfold clean_reit_data, prepare.
  rewrite H1, H2, H3, H4, H5, H6, remove_duplicates_eq.
  unfold drop_duplicates, duplicated.
  apply keep_first_from_distinct; [exact Hnd | intros x _ []].
Qed.

(** X9.  Cleaning a cleaned table changes nothing: when uppercasing is
    idempotent and no return of the output is a NaN, [clean_reit_data]
    applied to its own output returns that output. *)
Theorem clean_reit_data_idempotent (raw : DataFrame) :
  (forall s, upper sc (upper sc s) = upper sc s) ->
  Forall (fun r => is_nan (num_of (usdret r)) = false)
         (clean_reit_data sc raw) ->
  clean_reit_data sc (clean_reit_data sc raw) = clean_reit_data sc raw.
Proof.
  intros Hup Hnan. apply clean_reit_data_fixed; [exact Hup | |].
  - apply Forall_forall. intros r Hr.
    destruct (clean_reit_data_origin sc raw r Hr)
      as (r0 & t & _ & Hn & _ & _ & _ & Ht).
    destruct (clean_reit_data_usdret_range_or_nan sc raw r Hr)
      as (x & Hx & Hb).
    rewrite Forall_forall in Hnan. specialize (Hnan r Hr).
    rewrite Hx in Hnan. simpl in Hnan.
    exists (astype_str sc (ticker r0)), t, x, (extra r0).
    split.
    + rewrite Hn in Hx |- *. unfold Shape.normalise in *. simpl in *.
      rewrite Ht, Hx. reflexivity.
    + split; [exact Hnan |].
      destruct Hb as [Hb | Hb]; [congruence | tauto].
  - apply clean_reit_data_keys_NoDup.
Qed.

End ReitFurther3.

Lemma ascii_upper_idempotent (a : ascii) :
  ascii_upper (ascii_upper a) = ascii_upper a.
Proof.
  destruct a as [[] [] [] [] [] [] [] []]; reflexivity.
Defined.

Lemma string_upper_idempotent (s : string) :
  string_upper (string_upper s) = string_upper s.
Proof.
  induction s as [| a s IH]; simpl; [reflexivity |].
  rewrite ascii_upper_idempotent, IH. reflexivity.
Defined.

Lemma clean_reit_data_idempotent_witness :
  Reit.clean_reit_data csv_scalars
    (Reit.clean_reit_data csv_scalars Examples.raw_duplicate)
  = Reit.clean_reit_data csv_scalars Examples.raw_duplicate.
Proof.
  apply (clean_reit_data_idempotent csv_scalars Examples.raw_duplicate).
  - exact string_upper_idempotent.
  - vm_compute. repeat constructor.
Defined.

(** ** The FRED cleaner *)

Section FredFurther.

Import Fred.

Variable sc : Scalars.

Lemma ffill_from_Forall {A} (P : A -> Prop) (null : A -> bool) (limit : nat)
  (last : option A) (run : nat) (xs : list A) :
  Forall P xs -> (forall v, last = Some v -> P v) ->
  Forall P (ffill_from null limit last run xs).
Proof.
  intros Hxs. revert last run.
  induction Hxs as [| x xs Hx _ IH]; intros last run Hlast; simpl;
    [constructor |].
  destruct (null x).
  - destruct last as [v |].
    + constructor; [destruct (run <? limit)%nat; auto | apply IH; exact Hlast].
    + constructor; [exact Hx | apply IH; exact Hlast].
  - constructor; [exact Hx |]. apply IH. intros v Hv.
    injection Hv as Hv. subst v. exact Hx.
Qed.

Lemma to_datetime_shape (c d : cell) :
  to_datetime sc c = Ok d -> d = NA \/ exists t, d = TS t.
Proof.
  unfold to_datetime. destruct c; simpl;
    try (destruct (is_nan x));
    try (destruct (parse_datetime sc _));
    intros H; inversion H; eauto.
Qed.

Lemma dropna_dates_Forall (P : cell -> Prop) (df : DataFrame) :
  Forall P (dates (rows df)) -> Forall P (dates (rows (dropna df))).
Proof.
  unfold dates, dropna. simpl. rewrite !Forall_map, !Forall_forall.
  intros H r Hr. apply filter_In in Hr. apply H. tauto.
Qed.

(** The dates of the table before the last [dropna()]: each is missing or
    a month end. *)
Lemma clean_fred_data_dates_shape (raw out : DataFrame) :
  clean_fred_data sc raw = Ok out ->
  Forall Shape.month_end_or_missing (dates (rows out)).
Proof.
  unfold clean_fred_data. destruct (parse_dates sc raw) as [df1 |] eqn:Hp;
    simpl; [| discriminate].
  intros H. inversion H; subst; clear H.
  apply dropna_dates_Forall.
  rewrite add_fedfunds_lags_dates, add_cpi_inflation_dates.
  apply dropna_dates_Forall. rewrite ffill_frame_dates.
  unfold ffill. apply ffill_from_Forall; [| discriminate].
  apply parse_dates_Ok in Hp. destruct Hp as (_ & _ & Hf).
  unfold normalize_dates, dates. simpl. rewrite map_map, Forall_map.
  clear - Hf. induction Hf as [| r r' rs rs' Hr _ IH]; constructor; auto.
  simpl. destruct (to_datetime_shape _ Hr) as [Hd | [t Hd]]; rewrite Hd.
  - left. reflexivity.
  - right. exists t. reflexivity.
Qed.

(** X10.  Every date of the table [clean_fred_data] returns is the month-end
    timestamp of some date: the table is already in the form
    [align_temporal_structure] produces, so the alignment step of the merge
    script leaves the cleaned indicator table unchanged. *)
Theorem clean_fred_data_month_ends (raw out : DataFrame) :
  clean_fred_data sc raw = Ok out ->
  Forall (fun r => exists t, date r = TS (to_month_end t)) (rows out) /\
  Merge.align_fred (Merge.of_fred_clean out) = Merge.of_fred_clean out.
Proof.
  intros Hclean.
  assert (H : Forall (fun r => exists t, date r = TS (to_month_end t))
                     (rows out)).
  { pose proof (clean_fred_data_dates_shape raw Hclean) as Hs.
    pose proof (clean_fred_data_complete sc raw Hclean) as Hc.
    unfold dates in Hs. rewrite Forall_map in Hs.
    rewrite Forall_forall in *. intros r Hr.
    specialize (Hs r Hr). specialize (Hc r Hr).
    unfold complete in Hc. apply andb_prop in Hc. destruct Hc as [Hc _].
    unfold notnull in Hc. destruct Hs as [Hs | Hs]; [| exact Hs].
    rewrite Hs in Hc. discriminate. }
  split; [exact H |].
  unfold Merge.align_fred, Merge.of_fred_clean. simpl. f_equal.
  rewrite map_map. apply map_ext_in. intros r Hr. simpl.
  rewrite Forall_forall in H. destruct (H r Hr) as [t Ht].
  rewrite Ht. reflexivity.
Qed.

End FredFurther.

Lemma clean_fred_data_month_ends_witness :
  Forall (fun r => exists t, Fred.date r = TS (to_month_end t))
         (Fred.rows Examples.cleaned_monthly) /\
  Merge.align_fred (Merge.of_fred_clean Examples.cleaned_monthly)
    = Merge.of_fred_clean Examples.cleaned_monthly.
Proof.
  exact (clean_fred_data_month_ends csv_scalars Examples.raw_monthly
           cleaned_monthly_Ok).
Defined.

Section FredShape.

Import Fred.

Variable sc : Scalars.

Lemma set_nth_length {A} (j : nat) (v : A) (l : list A) :
  List.length (set_nth j v l) = List.length l.
Proof.
  revert j. induction l as [| x l IH]; intros [| j]; simpl; auto.
Qed.

Lemma zip_with_Forall {A B C} (P : A -> Prop) (Q : C -> Prop)
  (f : A -> B -> C) (l : list A) (l' : list B) :
  Forall P l -> (forall x y, P x -> Q (f x y)) -> Forall Q (zip_with f l l').
Proof.
  intros Hl Hf. revert l'. induction Hl as [| x l Hx _ IH]; intros [| y l'];
    simpl; constructor; auto.
Qed.

Lemma index_of_lt (name : string) (cols : list string) (j : nat) :
  index_of name cols = Some j -> (j < List.length cols)%nat.
Proof.
  revert j. induction cols as [| c cols IH]; intros j; simpl;
    [discriminate |].
  destruct (string_dec name c); [intros H; inversion H; lia |].
  destruct (index_of name cols) as [j' |]; simpl; [| discriminate].
  intros H. inversion H. specialize (IH j' eq_refl). lia.
Qed.

Lemma index_of_None (name : string) (cols : list string) :
  index_of name cols = None -> ~ In name cols.
Proof.
  intros H Hin. destruct (index_of_In _ _ Hin) as [j Hj]. congruence.
Qed.

Lemma has_column_In (name : string) (df : DataFrame) :
  has_column name df = true <-> In name (columns df).
Proof.
  unfold has_column. destruct (in_dec string_dec name (columns df));
    split; auto; discriminate.
Qed.

Lemma ffill_frame_rectangular (limit : nat) (df : DataFrame) :
  Shape.rectangular (ffill_frame limit df).
Proof.
  unfold Shape.rectangular, ffill_frame, rows_of. simpl.
  apply Forall_map, Forall_forall. intros i _. simpl.
  rewrite !length_map, length_seq. reflexivity.
Qed.

Lemma dropna_rectangular (df : DataFrame) :
  Shape.rectangular df -> Shape.rectangular (dropna df).
Proof.
  unfold Shape.rectangular, dropna. simpl. rewrite !Forall_forall.
  intros H r Hr. apply filter_In in Hr. apply H. tauto.
Qed.

Lemma assign_rectangular (name : string) (values : list float)
  (df : DataFrame) :
  Shape.rectangular df -> Shape.rectangular (assign name values df).
Proof.
  unfold Shape.rectangular, assign. intros H.
  destruct (index_of name (columns df)); simpl;
    eapply zip_with_Forall; try exact H; intros r v Hr; simpl.
  - rewrite set_nth_length. exact Hr.
  - rewrite !length_app, Hr. reflexivity.
Qed.

(** The columns after one assignment: the same, or one more at the end. *)
Lemma assign_columns (name : string) (values : list float) (df : DataFrame) :
  In name (columns (assign name values df)) /\
  (columns (assign name values df) = columns df \/
   (~ In name (columns df) /\
    columns (assign name values df) = columns df ++ [name])).
Proof.
  unfold assign. destruct (index_of name (columns df)) as [j |] eqn:Hj; simpl.
  - split; [| left; reflexivity].
    destruct (in_dec string_dec name (columns df)) as [Hin | Hnin];
      [exact Hin |].
    exfalso. clear - Hj Hnin. revert j Hj.
    induction (columns df) as [| c cols IH]; intros j; simpl;
      [discriminate |].
    destruct (string_dec name c) as [-> | Hne]; [simpl in Hnin; tauto |].
    destruct (index_of name cols) as [j' |] eqn:Hj'; simpl; [| discriminate].
    intros _. apply (IH (fun H => Hnin (or_intror H)) j'). reflexivity.
  - split; [apply in_or_app; right; left; reflexivity |].
    right. split; [apply index_of_None; exact Hj | reflexivity].
Qed.

Lemma parse_dates_length (df df' : DataFrame) :
  parse_dates sc df = Ok df' ->
  List.length (rows df') = List.length (rows df).
Proof.
  intros H. apply parse_dates_Ok in H. destruct H as (_ & _ & H).
  symmetry. eapply Forall2_length. exact H.
Qed.

Lemma add_cpi_inflation_length (df : DataFrame) :
  List.length (rows (add_cpi_inflation df)) = List.length (rows df).
Proof.
  pose proof (add_cpi_inflation_dates df) as H.
  apply (f_equal (@List.length cell)) in H. unfold dates in H.
  rewrite !length_map in H. exact H.
Qed.

Lemma add_fedfunds_lags_length (df : DataFrame) :
  List.length (rows (add_fedfunds_lags df)) = List.length (rows df).
Proof.
  pose proof (add_fedfunds_lags_dates df) as H.
  apply (f_equal (@List.length cell)) in H. unfold dates in H.
  rewrite !length_map in H. exact H.
Qed.

Lemma ffill_frame_length (limit : nat) (df : DataFrame) :
  List.length (rows (ffill_frame limit df)) = List.length (rows df).
Proof.
  unfold ffill_frame, rows_of. simpl. rewrite length_map, length_seq.
  reflexivity.
Qed.

Lemma dropna_length (df : DataFrame) :
  (List.length (rows (dropna df)) <= List.length (rows df))%nat.
Proof. unfold dropna. simpl. apply filter_length_le. Qed.

Lemma extended_by_refl (names cols : list string) :
  Shape.extended_by names cols cols.
Proof. exists []. split; [symmetry; apply app_nil_r | intros x []]. Qed.

Lemma extended_by_trans (names a b c : list string) :
  Shape.extended_by names a b -> Shape.extended_by names b c ->
  Shape.extended_by names a c.
Proof.
  intros (x & Hb & Hx) (y & Hc & Hy). exists (x ++ y).
  split; [rewrite Hc, Hb, app_assoc; reflexivity |].
  apply incl_app; assumption.
Qed.

Lemma extended_by_assign (names : list string) (name : string)
  (values : list float) (df : DataFrame) :
  In name names ->
  Shape.extended_by names (columns df) (columns (assign name values df)).
Proof.
  intros Hin. destruct (assign_columns name values df) as [_ [H | [_ H]]];
    rewrite H; [apply extended_by_refl |].
  exists [name]. split; [reflexivity |].
  intros x [Hx | []]. subst x. exact Hin.
Qed.

(** X11.  The table [clean_fred_data] returns is rectangular (one value per
    column in every row), has no more rows than the raw table, and keeps
    the raw columns in their order, followed by the derived columns that
    were not there before; the derived column of a series that is present
    is present. *)
Theorem clean_fred_data_shape (raw out : DataFrame) :
  clean_fred_data sc raw = Ok out ->
  Shape.rectangular out /\
  (List.length (rows out) <= List.length (rows raw))%nat /\
  Shape.extended_by
    ["cpi_inflation_yoy"; "FEDFUNDS_lag1"; "FEDFUNDS_lag3"]%string
    (columns raw) (columns out) /\
  (In "CPIAUCSL"%string (columns raw) ->
   In "cpi_inflation_yoy"%string (columns out)) /\
  (In "FEDFUNDS"%string (columns raw) ->
   In "FEDFUNDS_lag1"%string (columns out) /\
   In "FEDFUNDS_lag3"%string (columns out)).
Proof.
  unfold clean_fred_data. destruct (parse_dates sc raw) as [df1 |] eqn:Hp;
    simpl; [| discriminate].
  intros H. inversion H; subst; clear H.
  pose proof (parse_dates_length _ Hp) as Hlen1.
  apply parse_dates_Ok in Hp. destruct Hp as (Hcols & _ & _).
  set (df2 := dropna (ffill_frame 2 (normalize_dates df1))).
  assert (Hc2 : columns df2 = columns raw) by (simpl; exact Hcols).
  assert (Hr2 : Shape.rectangular df2)
    by (apply dropna_rectangular, ffill_frame_rectangular).
  assert (Hl2 : (List.length (rows df2) <= List.length (rows raw))%nat).
  { unfold df2. etransitivity; [apply dropna_length |].
    rewrite ffill_frame_length. unfold normalize_dates. simpl.
    rewrite length_map. lia. }
  clearbody df2.
  split; [| split; [| split; [| split]]].
  - apply dropna_rectangular. unfold add_fedfunds_lags, add_cpi_inflation.
    destruct (has_column "CPIAUCSL" df2);
      destruct (has_column "FEDFUNDS" _);
      repeat apply assign_rectangular; exact Hr2.
  - etransitivity; [apply dropna_length |].
    rewrite add_fedfunds_lags_length, add_cpi_inflation_length. exact Hl2.
  - simpl. rewrite <- Hc2.
    apply extended_by_trans with (b := columns (add_cpi_inflation df2)).
    + unfold add_cpi_inflation. destruct (has_column "CPIAUCSL" df2);
        [apply extended_by_assign; simpl; tauto | apply extended_by_refl].
    + unfold add_fedfunds_lags.
      destruct (has_column "FEDFUNDS" (add_cpi_inflation df2));
        [| apply extended_by_refl].
      eapply extended_by_trans;
        [apply extended_by_assign | apply extended_by_assign];
        simpl; tauto.
  - intros Hin. simpl. rewrite <- Hc2 in Hin.
    apply has_column_In in Hin.
    unfold add_cpi_inflation. rewrite Hin.
    match goal with
    | |- context [assign "cpi_inflation_yoy" ?v df2] =>
        set (df3 := assign "cpi_inflation_yoy" v df2);
        pose proof (proj1 (assign_columns "cpi_inflation_yoy" v df2)) as H3;
        fold df3 in H3; clearbody df3
    end.
    apply has_column_In in H3. unfold add_fedfunds_lags.
    destruct (has_column "FEDFUNDS" df3); [| apply has_column_In; exact H3].
    apply has_column_In. repeat apply has_column_assign. exact H3.
  - intros Hin. simpl. rewrite <- Hc2 in Hin. apply has_column_In in Hin.
    assert (Hin3 : has_column "FEDFUNDS" (add_cpi_inflation df2) = true).
    { unfold add_cpi_inflation. destruct (has_column "CPIAUCSL" df2);
        [apply has_column_assign |]; exact Hin. }
    unfold add_fedfunds_lags. rewrite Hin3.
    set (df3 := add_cpi_inflation df2) in *. clearbody df3.
    match goal with
    | |- context [assign "FEDFUNDS_lag1" ?v df3] =>
        set (df4 := assign "FEDFUNDS_lag1" v df3);
        pose proof (proj1 (assign_columns "FEDFUNDS_lag1" v df3)) as H4;
        fold df4 in H4; clearbody df4
    end.
    split.
    + apply has_column_In, has_column_assign, has_column_In. exact H4.
    + match goal with
      | |- context [assign "FEDFUNDS_lag3" ?v df4] =>
          exact (proj1 (assign_columns "FEDFUNDS_lag3" v df4))
      end.
Qed.

End FredShape.

Lemma clean_fred_data_shape_witness :
  Shape.rectangular Examples.cleaned_monthly /\
  (List.length (Fred.rows Examples.cleaned_monthly)
   <= List.length (Fred.rows Examples.raw_monthly))%nat /\
  Shape.extended_by
    ["cpi_inflation_yoy"; "FEDFUNDS_lag1"; "FEDFUNDS_lag3"]%string
    (Fred.columns Examples.raw_monthly)
    (Fred.columns Examples.cleaned_monthly) /\
  (In "CPIAUCSL"%string (Fred.columns Examples.raw_monthly) ->
   In "cpi_inflation_yoy"%string (Fred.columns Examples.cleaned_monthly)) /\
  (In "FEDFUNDS"%string (Fred.columns Examples.raw_monthly) ->
   In "FEDFUNDS_lag1"%string (Fred.columns Examples.cleaned_monthly) /\
   In "FEDFUNDS_lag3"%string (Fred.columns Examples.cleaned_monthly)).
Proof.
  exact (clean_fred_data_shape csv_scalars Examples.raw_monthly
           cleaned_monthly_Ok).
Defined.

Section FredWarmUp.

Import Fred.

Variable sc : Scalars.

Lemma nth_error_zip_with {A B C} (f : A -> B -> C) (l : list A) (l' : list B)
  (i : nat) :
  nth_error (zip_with f l l') i
    = match nth_error l i, nth_error l' i with
      | Some x, Some y => Some (f x y)
      | _, _ => None
      end.
Proof.
  revert l l'. induction i as [| i IH]; intros [| x l] [| y l']; simpl;
    try reflexivity.
  - destruct (nth_error l i); reflexivity.
  - apply IH.
Qed.

Lemma shift_prefix (n : nat) (xs : list float) (i : nat) :
  (i < n)%nat -> (i < List.length xs)%nat ->
  nth_error (shift n xs) i = Some nan.
Proof.
  intros Hn Hx. unfold shift.
  rewrite nth_error_firstn.
  destruct (Nat.ltb_spec i (List.length xs)) as [_ | Hge]; [| lia].
  rewrite nth_error_app1 by (rewrite repeat_length; exact Hn).
  apply nth_error_repeat. exact Hn.
Qed.

Lemma pct_change_prefix (n : nat) (xs : list float) (i : nat) :
  (i < n)%nat -> (i < List.length xs)%nat ->
  nth_error (pct_change n xs) i = Some nan.
Proof.
  intros Hn Hx. unfold pct_change.
  rewrite nth_error_zip_with, (@shift_prefix n xs i Hn Hx).
  destruct (nth_error xs i) as [x |] eqn:Hi.
  - destruct x; reflexivity.
  - apply nth_error_None in Hi. lia.
Qed.

Lemma nth_error_set_nth_same {A} (j : nat) (v : A) (l : list A) :
  (j < List.length l)%nat -> nth_error (set_nth j v l) j = Some v.
Proof.
  revert j. induction l as [| x l IH]; intros [| j] H; simpl in *;
    try lia; [reflexivity |].
  apply IH. lia.
Qed.

Lemma nth_error_set_nth_other {A} (j j' : nat) (v : A) (l : list A) :
  j <> j' -> nth_error (set_nth j' v l) j = nth_error l j.
Proof.
  revert j j'. induction l as [| x l IH]; intros [| j] [| j'] H; simpl;
    try reflexivity; try congruence.
  apply IH. congruence.
Qed.

Lemma index_of_nth (name : string) (cols : list string) (j : nat) :
  index_of name cols = Some j -> nth_error cols j = Some name.
Proof.
  revert j. induction cols as [| c cols IH]; intros j; simpl;
    [discriminate |].
  destruct (string_dec name c) as [-> | _];
    [intros H; inversion H; reflexivity |].
  destruct (index_of name cols) as [j' |]; simpl; [| discriminate].
  intros H. inversion H. simpl. apply IH. reflexivity.
Qed.

Lemma index_of_app (name : string) (cols more : list string) (j : nat) :
  index_of name cols = Some j -> index_of name (cols ++ more) = Some j.
Proof.
  revert j. induction cols as [| c cols IH]; intros j; simpl;
    [discriminate |].
  destruct (string_dec name c); [trivial |].
  destruct (index_of name cols) as [j' |]; simpl; [| discriminate].
  intros H. rewrite (IH j' eq_refl). exact H.
Qed.

Lemma index_of_app_new (name : string) (cols : list string) :
  index_of name cols = None ->
  index_of name (cols ++ [name]) = Some (List.length cols).
Proof.
  induction cols as [| c cols IH]; simpl.
  - intros _. destruct (string_dec name name); [reflexivity | congruence].
  - destruct (string_dec name c); [discriminate |].
    destruct (index_of name cols); simpl; [discriminate |].
    intros _. rewrite IH; reflexivity.
Qed.

Lemma rectangular_nth (df : DataFrame) (i : nat) (r : row) :
  Shape.rectangular df -> nth_error (rows df) i = Some r ->
  List.length (vals r) = List.length (columns df).
Proof.
  intros Hr Hi. apply nth_error_In in Hi.
  unfold Shape.rectangular in Hr. rewrite Forall_forall in Hr. auto.
Qed.

(** Assigning a column whose first [k] values are NaN puts a NaN in that
    column of the first [k] rows. *)
Lemma assign_nan_prefix (k : nat) (name : string) (values : list float)
  (df : DataFrame) :
  Shape.rectangular df ->
  (forall i, (i < k)%nat -> (i < List.length values)%nat ->
             nth_error values i = Some nan) ->
  exists j,
    index_of name (columns (assign name values df)) = Some j /\
    Shape.nan_prefix k j (rows (assign name values df)).
Proof.
  intros Hrect Hvals. unfold assign.
  destruct (index_of name (columns df)) as [j |] eqn:Hj; simpl.
  - exists j. split; [exact Hj |]. intros i r Hi Hr.
    rewrite nth_error_zip_with in Hr.
    destruct (nth_error (rows df) i) as [r0 |] eqn:H0; [| discriminate].
    destruct (nth_error values i) as [v |] eqn:Hv; [| discriminate].
    inversion Hr; subst r; clear Hr. simpl.
    assert (Hlt : (i < List.length values)%nat)
      by (apply nth_error_Some; congruence).
    rewrite (Hvals i Hi Hlt) in Hv. inversion Hv; subst v.
    apply nth_error_set_nth_same.
    rewrite (@rectangular_nth df i r0 Hrect H0). apply (index_of_lt _ _ Hj).
  - exists (List.length (columns df)).
    split; [apply index_of_app_new; exact Hj |]. intros i r Hi Hr.
    rewrite nth_error_zip_with in Hr.
    destruct (nth_error (rows df) i) as [r0 |] eqn:H0; [| discriminate].
    destruct (nth_error values i) as [v |] eqn:Hv; [| discriminate].
    inversion Hr; subst r; clear Hr. simpl.
    assert (Hlt : (i < List.length values)%nat)
      by (apply nth_error_Some; congruence).
    rewrite (Hvals i Hi Hlt) in Hv. inversion Hv; subst v.
    rewrite <- (@rectangular_nth df i r0 Hrect H0).
    rewrite nth_error_app2, Nat.sub_diag by lia. reflexivity.
Qed.

(** Assigning another column leaves those NaN where they are. *)
Lemma assign_keeps_nan_prefix (k j : nat) (name0 name : string)
  (values : list float) (df : DataFrame) :
  index_of name0 (columns df) = Some j -> name <> name0 ->
  Shape.nan_prefix k j (rows df) ->
  index_of name0 (columns (assign name values df)) = Some j /\
  Shape.nan_prefix k j (rows (assign name values df)).
Proof.
  intros Hj Hne Hpre. unfold assign.
  destruct (index_of name (columns df)) as [j' |] eqn:Hj'; simpl.
  - split; [exact Hj |]. intros i r Hi Hr.
    rewrite nth_error_zip_with in Hr.
    destruct (nth_error (rows df) i) as [r0 |] eqn:H0; [| discriminate].
    destruct (nth_error values i) as [v |]; [| discriminate].
    inversion Hr; subst r; clear Hr. simpl.
    rewrite nth_error_set_nth_other; [exact (Hpre i r0 Hi H0) |].
    intros Heq. subst j'. apply index_of_nth in Hj, Hj'. congruence.
  - split; [apply index_of_app; exact Hj |]. intros i r Hi Hr.
    rewrite nth_error_zip_with in Hr.
    destruct (nth_error (rows df) i) as [r0 |] eqn:H0; [| discriminate].
    destruct (nth_error values i) as [v |]; [| discriminate].
    inversion Hr; subst r; clear Hr. simpl.
    pose proof (Hpre i r0 Hi H0) as Hn.
    rewrite nth_error_app1; [exact Hn |].
    apply nth_error_Some. congruence.
Qed.

Lemma complete_nan (r : row) (j : nat) :
  nth_error (vals r) j = Some nan -> complete r = false.
Proof.
  intros H. apply nth_error_In in H. unfold complete.
  destruct (forallb _ (vals r)) eqn:Hf; [| apply andb_false_r].
  rewrite forallb_forall in Hf. specialize (Hf nan H). discriminate.
Qed.

Lemma filter_prefix_dropped {A} (p : A -> bool) (k : nat) (l : list A) :
  (forall i x, (i < k)%nat -> nth_error l i = Some x -> p x = false) ->
  (List.length (filter p l) <= List.length l - k)%nat.
Proof.
  revert k. induction l as [| y l IH]; intros k H; simpl; [lia |].
  destruct k as [| k].
  - pose proof (filter_length_le p l). destruct (p y); simpl; lia.
  - rewrite (H 0%nat y); [| lia | reflexivity].
    apply IH. intros i x Hi Hx. apply (H (S i) x); [lia | exact Hx].
Qed.

Lemma nan_prefix_dropna (k j : nat) (df : DataFrame) :
  Shape.nan_prefix k j (rows df) ->
  (List.length (rows (dropna df)) <= List.length (rows df) - k)%nat.
Proof.
  intros H. unfold dropna. simpl. apply filter_prefix_dropped.
  intros i r Hi Hr. apply (complete_nan r j). exact (H i r Hi Hr).
Qed.

(** X12.  The derived fields cost their warm-up rows: when the raw table
    has a [CPIAUCSL] column the cleaned table has at least 12 rows fewer
    than the raw table (none when the raw table has 12 rows or fewer), and
    when it has a [FEDFUNDS] column at least 3 rows fewer. *)
Theorem clean_fred_data_warm_up (raw out : DataFrame) :
  clean_fred_data sc raw = Ok out ->
  (In "CPIAUCSL"%string (columns raw) ->
   (List.length (rows out) <= List.length (rows raw) - 12)%nat) /\
  (In "FEDFUNDS"%string (columns raw) ->
   (List.length (rows out) <= List.length (rows raw) - 3)%nat).
Proof.
  unfold clean_fred_data. destruct (parse_dates sc raw) as [df1 |] eqn:Hp;
    simpl; [| discriminate].
  intros H. inversion H; subst; clear H.
  pose proof (parse_dates_length sc _ Hp) as Hlen1.
  apply parse_dates_Ok in Hp. destruct Hp as (Hcols & _ & _).
  set (df2 := dropna (ffill_frame 2 (normalize_dates df1))).
  assert (Hc2 : columns df2 = columns raw) by (simpl; exact Hcols).
  assert (Hr2 : Shape.rectangular df2)
    by (apply dropna_rectangular, ffill_frame_rectangular).
  assert (Hl2 : (List.length (rows df2) <= List.length (rows raw))%nat).
  { unfold df2. etransitivity; [apply dropna_length |].
    rewrite ffill_frame_length. unfold normalize_dates. simpl.
    rewrite length_map. lia. }
  clearbody df2. split.
  - intros Hin. rewrite <- Hc2 in Hin. apply has_column_In in Hin.
    assert (Hpre : exists j,
               index_of "cpi_inflation_yoy" (columns (add_cpi_inflation df2))
                 = Some j /\
               Shape.nan_prefix 12 j (rows (add_cpi_inflation df2))).
    { unfold add_cpi_inflation. rewrite Hin.
      apply assign_nan_prefix; [exact Hr2 |].
      intros i Hi Hlen. rewrite length_map, pct_change_length in Hlen.
      rewrite nth_error_map, (@pct_change_prefix 12 _ i Hi Hlen).
      reflexivity. }
    destruct Hpre as (j & Hj & Hpre).
    assert (Hpre' : Shape.nan_prefix 12 j
                      (rows (add_fedfunds_lags (add_cpi_inflation df2)))).
    { unfold add_fedfunds_lags.
      destruct (has_column "FEDFUNDS" (add_cpi_inflation df2));
        [| exact Hpre].
      match goal with
      | |- context [assign "FEDFUNDS_lag1" ?v ?d] =>
          destruct (@assign_keeps_nan_prefix 12 j "cpi_inflation_yoy"%string
                      "FEDFUNDS_lag1"%string v d Hj) as [Hj4 Hpre4];
          [discriminate | exact Hpre |]
      end.
      match goal with
      | |- context [assign "FEDFUNDS_lag3" ?v ?d] =>
          destruct (@assign_keeps_nan_prefix 12 j "cpi_inflation_yoy"%string
                      "FEDFUNDS_lag3"%string v d Hj4) as [_ Hpre5];
          [discriminate | exact Hpre4 | exact Hpre5]
      end. }
    apply nan_prefix_dropna in Hpre'.
    rewrite add_fedfunds_lags_length, add_cpi_inflation_length in Hpre'.
    lia.
  - intros Hin. rewrite <- Hc2 in Hin. apply has_column_In in Hin.
    assert (Hin3 : has_column "FEDFUNDS" (add_cpi_inflation df2) = true).
    { unfold add_cpi_inflation. destruct (has_column "CPIAUCSL" df2);
        [apply has_column_assign |]; exact Hin. }
    assert (Hr3 : Shape.rectangular (add_cpi_inflation df2)).
    { unfold add_cpi_inflation. destruct (has_column "CPIAUCSL" df2);
        [apply assign_rectangular |]; exact Hr2. }
    pose proof (add_fedfunds_lags_length (add_cpi_inflation df2)) as Hlen.
    unfold add_fedfunds_lags in *. rewrite Hin3 in *.
    set (df3 := add_cpi_inflation df2) in *.
    match goal with
    | |- context [assign "FEDFUNDS_lag3" ?v ?d] =>
        destruct (@assign_nan_prefix 3 "FEDFUNDS_lag3"%string v d)
          as (j & _ & Hpre)
    end.
    + apply assign_rectangular. exact Hr3.
    + intros i Hi Hl. rewrite shift_length in Hl.
      apply shift_prefix; assumption.
    + apply nan_prefix_dropna in Hpre. rewrite Hlen in Hpre.
      assert (Hl3 : List.length (rows df3) = List.length (rows df2))
        by apply add_cpi_inflation_length.
      rewrite Hl3 in Hpre. lia.
Qed.

End FredWarmUp.

Lemma cleaned_cpi_Ok :
  Fred.clean_fred_data csv_scalars MoreExamples.raw_cpi
    = Ok MoreExamples.cleaned_cpi.
Proof. vm_compute. reflexivity. Defined.

Lemma clean_fred_data_warm_up_witness :
  (List.length (Fred.rows MoreExamples.cleaned_cpi)
   <= List.length (Fred.rows MoreExamples.raw_cpi) - 12)%nat.
Proof.
  apply (proj1 (clean_fred_data_warm_up csv_scalars MoreExamples.raw_cpi
                  cleaned_cpi_Ok)).
  left. reflexivity.
Defined.

Example cleaned_cpi_rows :
  map Fred.date (Fred.rows MoreExamples.cleaned_cpi)
    = [TS (mkTimestamp 2020 1 31 0); TS (mkTimestamp 2020 2 29 0)] /\
  Fred.columns MoreExamples.cleaned_cpi
    = ["CPIAUCSL"; "cpi_inflation_yoy"]%string.
Proof. split; reflexivity. Qed.

(** ** The scripts around the cleaners *)

Section ScriptFurther.

Import Script.

Variable sc : Scalars.

(** X13.  [main] of [fetch_reit_data.py] never changes the raw file.  With
    the raw file absent it prints the warning and the failure line and
    writes nothing.  With the raw file present it writes the table
    [clean_reit_data] returns, also when that table has no row: the summary
    step then prints that there is no data, and the empty file is saved all
    the same. *)
Theorem reit_main_outcome (raw_file old : option Reit.DataFrame)
  (log : list event) :
  let w' := snd (ReitScript.main sc (ReitScript.mkWorld raw_file old log)) in
  ReitScript.raw_csv w' = raw_file /\
  match raw_file with
  | None =>
      ReitScript.reit_data_clean_csv w' = old /\
      ReitScript.stdout w'
        = log ++ [Banner "REIT DATA FETCH & CLEAN PIPELINE";
                  Banner "STEP 1: Loading REIT Master Panel Data";
                  RawNotFound; PipelineFailed]
  | Some df =>
      let out := Reit.clean_reit_data sc df in
      ReitScript.reit_data_clean_csv w' = Some out /\
      ReitScript.stdout w'
        = log ++ [Banner "REIT DATA FETCH & CLEAN PIPELINE";
                  Banner "STEP 1: Loading REIT Master Panel Data";
                  Loaded (List.length df);
                  Banner "STEP 2: Data Cleaning & Quality Checks";
                  FinalSample (List.length out)
                    (Z.of_nat (List.length df) - Z.of_nat (List.length out));
                  Banner "STEP 3: Summary Statistics";
                  (if (List.length out =? 0)%nat then NoDataToSummarize
                   else Summary (ReitScript.nunique_ticker out)
                                (List.length out));
                  Banner "STEP 4: Saving Cleaned Data";
                  Saved (List.length out);
                  PipelineComplete] /\
      (0 <= Z.of_nat (List.length df) - Z.of_nat (List.length out))%Z
  end.
Proof.
  destruct raw_file as [df |]; cbn zeta.
  - unfold ReitScript.main, ReitScript.load_reit_data, ReitScript.clean_step,
      ReitScript.summarize_data, ReitScript.save_cleaned_data,
      ReitScript.print, ReitScript.to_csv, bind, ret.
    cbn [ReitScript.raw_csv ReitScript.reit_data_clean_csv ReitScript.stdout
         fst snd].
    destruct (List.length (Reit.clean_reit_data sc df) =? 0)%nat;
      cbn [ReitScript.raw_csv ReitScript.reit_data_clean_csv
           ReitScript.stdout fst snd];
      (split; [reflexivity |]); (split; [reflexivity |]);
      (split; [rewrite <- !app_assoc; reflexivity |]);
      pose proof (clean_reit_data_length sc df); lia.
  - split; [reflexivity |]. split; [reflexivity |].
    simpl. rewrite <- !app_assoc. reflexivity.
Qed.

(** X14.  [main] of [fetch_fred_data.py]: when [clean_fred_data] raises, the
    exception ends the run and no file is written; otherwise the table it
    returns is saved, also when it has no row, which the summary step
    reports. *)
Theorem fred_main_outcome (df : Fred.DataFrame)
  (old : option Fred.DataFrame) (log : list event) :
  let w' := snd (FredScript.main sc
                   (FredScript.mkWorld (Some df) old log None)) in
  match Fred.clean_fred_data sc df with
  | Raise e =>
      FredScript.raised w' = Some e /\
      FredScript.fred_data_clean_csv w' = old /\
      FredScript.stdout w'
        = log ++ [Banner "FRED ECONOMIC DATA FETCH PIPELINE";
                  Banner "STEP 2: Data Cleaning & Transformation"]
  | Ok out =>
      FredScript.raised w' = None /\
      FredScript.fred_data_clean_csv w' = Some out /\
      FredScript.stdout w'
        = log ++ [Banner "FRED ECONOMIC DATA FETCH PIPELINE";
                  Banner "STEP 2: Data Cleaning & Transformation";
                  FinalDataset (List.length (Fred.rows out));
                  Banner "STEP 3: Summary Statistics";
                  (if (List.length (Fred.rows out) =? 0)%nat
                   then NoDataToSummarize
                   else Observations (List.length (Fred.rows out)));
                  Banner "STEP 4: Saving FRED Data";
                  Saved (List.length (Fred.rows out));
                  PipelineComplete]
  end.
Proof.
  unfold FredScript.main, FredScript.summarize_fred_data,
    FredScript.save_fred_data, FredScript.print, FredScript.to_csv,
    FredScript.raise, bind, ret.
  cbn [FredScript.fetched FredScript.fred_data_clean_csv FredScript.stdout
       FredScript.raised fst snd].
  destruct (Fred.clean_fred_data sc df) as [out | e];
    cbn [FredScript.fetched FredScript.fred_data_clean_csv FredScript.stdout
         FredScript.raised fst snd].
  - destruct (List.length (Fred.rows out) =? 0)%nat;
      cbn [FredScript.fetched FredScript.fred_data_clean_csv
           FredScript.stdout FredScript.raised fst snd];
      repeat split; rewrite <- !app_assoc; reflexivity.
  - repeat split. rewrite <- !app_assoc. reflexivity.
Qed.

End ScriptFurther.

(** A raw REIT file of which every row is dropped: the empty table is
    saved. *)
Example reit_main_all_dropped :
  ReitScript.reit_data_clean_csv
    (snd (ReitScript.main csv_scalars MoreExamples.reit_world_all_dropped))
    = Some [] /\
  In Script.NoDataToSummarize
     (ReitScript.stdout
        (snd (ReitScript.main csv_scalars
                MoreExamples.reit_world_all_dropped))).
Proof. split; vm_compute; [reflexivity | tauto]. Qed.

(** ** The merge script, end to end *)

Section MergeEndToEnd.

Import Merge.

(** X15.  The join keeps keys distinct: when the (ticker, month) pairs of
    the entity table are pairwise distinct and the indicator table holds
    one row per month at most, the (ticker, month) pairs of the panel
    [merge_datasets] returns are pairwise distinct. *)
Theorem merge_datasets_keys_distinct
  (reit_df : reit_frame) (fred_df : fred_frame) (w : World) :
  NoDup (map (fun e => (ticker e, date e)) reit_df) ->
  NoDup (map fdate (fred_rows fred_df)) ->
  exists p,
    fst (merge_datasets (Some reit_df) (Some fred_df) w) = Some p /\
    NoDup (map Shape.panel_key p).
Proof.
  intros HE HI. exists (pd_merge_left reit_df fred_df).
  rewrite merge_datasets_run. split; [reflexivity |].
  unfold Shape.panel_key.
  rewrite <- (map_map entity (fun e => (ticker e, date e))).
  rewrite (pd_merge_left_entities fred_df reit_df HI). exact HE.
Qed.

Lemma entity_table_keys_NoDup :
  NoDup (map (fun e => (ticker e, date e)) Examples.entity_table).
Proof. repeat constructor; simpl; intuition discriminate. Defined.

Lemma merge_datasets_keys_distinct_witness :
  exists p,
    fst (merge_datasets (Some Examples.entity_table)
           (Some Examples.indicator_table) (initial_world None None))
      = Some p /\
    NoDup (map Shape.panel_key p).
Proof.
  exact (merge_datasets_keys_distinct Examples.entity_table
           Examples.indicator_table (initial_world None None)
           entity_table_keys_NoDup indicator_table_keys_NoDup).
Defined.

(** X16.  With both processed files present, the panel [main] writes holds
    the rows of the left join of the aligned tables, in sorted order; it has
    at least as many rows as the entity file, and when the months of the
    indicator file are pairwise distinct after alignment its entity rows
    are the aligned entity rows, each once. *)
Theorem main_panel_rows (reit_df : reit_frame) (fred_df : fred_frame)
  (old_panel old_summary : option panel) (log : list event) :
  exists p,
    reit_fred_analysis_panel_csv
      (snd (main (mkWorld (Some reit_df) (Some fred_df)
                    old_panel old_summary log))) = Some p /\
    Permutation (pd_merge_left (align_reit reit_df) (align_fred fred_df)) p /\
    Sorted (fun a b => row_leb a b = true) p /\
    (List.length reit_df <= List.length p)%nat /\
    (NoDup (map (fun i => option_map to_month_end (fdate i))
                (fred_rows fred_df)) ->
     Permutation (align_reit reit_df) (map entity p) /\
     List.length p = List.length reit_df).
Proof.
  rewrite main_run_present. cbn [snd reit_fred_analysis_panel_csv].
  set (q := pd_merge_left (align_reit reit_df) (align_fred fred_df)).
  exists (sort_values q).
  assert (Hperm : Permutation q (sort_values q)).
  { clear. induction q as [| r q IH]; simpl; [constructor |].
    rewrite <- insert_sorted_Permutation. constructor. exact IH. }
  assert (Hlen : List.length (align_reit reit_df) = List.length reit_df)
    by (unfold align_reit; apply length_map).
  split; [reflexivity |]. split; [exact Hperm |]. split.
  - clear. induction q as [| r q IH]; simpl; [constructor |].
    apply insert_sorted_Sorted. exact IH.
  - split.
    + rewrite sort_values_length, <- Hlen. apply pd_merge_left_no_loss.
    + intros Hnd.
      assert (Hnd' : NoDup (map fdate (fred_rows (align_fred fred_df)))).
      { unfold align_fred, align_date. simpl. rewrite map_map. exact Hnd. }
      pose proof (pd_merge_left_entities (align_fred fred_df)
                    (align_reit reit_df) Hnd') as He.
      fold q in He. split.
      * rewrite <- He. apply Permutation_map. exact Hperm.
      * rewrite sort_values_length, <- Hlen, <- He at 1.
        rewrite length_map. reflexivity.
Qed.

Lemma indicator_table_months_NoDup :
  NoDup (map (fun i => option_map to_month_end (fdate i))
             (fred_rows Examples.indicator_table)).
Proof. repeat constructor; simpl; intuition discriminate. Defined.

Lemma main_panel_rows_witness :
  exists p,
    reit_fred_analysis_panel_csv
      (snd (main (mkWorld (Some Examples.entity_table)
                    (Some Examples.indicator_table) None None []))) = Some p /\
    List.length p = List.length Examples.entity_table.
Proof.
  destruct (main_panel_rows Examples.entity_table Examples.indicator_table
              None None [])
    as (p & Hp & _ & _ & _ & Hnd).
  exists p. split; [exact Hp |].
  exact (proj2 (Hnd indicator_table_months_NoDup)).
Defined.

End MergeEndToEnd.
